(** * bi-agent-streamlit: the SQL agent pipeline

    A shallow embedding of [utils.py] (text extraction, intent tagging,
    statement splitting, table-name scan) and of [sql_agent_langgraph.py]
    (the node functions and the graph wiring), with the properties the
    specification states about them.

    Python text is modelled by [string]; a character is a code point
    below 256, and whitespace, case mapping and the word class follow
    what [str] and [re] do on that range. *)

From Stdlib Require Import String Ascii List Bool Arith Lia ZArith.
From Stdlib Require Import Numbers.DecimalString.
Import ListNotations.
Local Open Scope list_scope.
Local Open Scope string_scope.

(** ** Python's [str] operations *)

Module PyStr.

Definition nl : string := String "010" "".
Definition dq : string := String "034" "".

Definition code (c : ascii) : nat := nat_of_ascii c.

Definition between (lo hi n : nat) : bool := Nat.leb lo n && Nat.leb n hi.

(** [str.isspace] on one character: TAB..CR, FS..US, space, NEL, NBSP. *)
Definition isspace (c : ascii) : bool :=
  let n := code c in
  between 9 13 n || between 28 32 n || Nat.eqb n 133 || Nat.eqb n 160.

(** [str.lower] on one character: A-Z and the capitals of Latin-1 (all of
    192..222 but the multiplication sign) move up by 32. *)
Definition lower_char (c : ascii) : ascii :=
  let n := code c in
  if between 65 90 n || (between 192 222 n && negb (Nat.eqb n 215))
  then ascii_of_nat (n + 32) else c.

(** [str.upper] on one character.  The sharp s becomes two letters; the
    capitals of y-diaeresis and of the micro sign lie above 255 and are left
    in place: like their capitals they are neither whitespace nor part
    of any keyword, which is all the callers look at. *)
Definition upper_char (c : ascii) : string :=
  let n := code c in
  if Nat.eqb n 223 then "SS"
  else if between 97 122 n || (between 224 254 n && negb (Nat.eqb n 247))
  then String (ascii_of_nat (n - 32)) ""
  else String c "".

Fixpoint lower (s : string) : string :=
  match s with
  | "" => ""
  | String c s' => String (lower_char c) (lower s')
  end.

Fixpoint upper (s : string) : string :=
  match s with
  | "" => ""
  | String c s' => upper_char c ++ upper s'
  end.

Definition is_empty (s : string) : bool :=
  match s with "" => true | _ => false end.

Fixpoint lstrip (s : string) : string :=
  match s with
  | "" => ""
  | String c s' => if isspace c then lstrip s' else s
  end.

Fixpoint rstrip (s : string) : string :=
  match s with
  | "" => ""
  | String c s' =>
      let r := rstrip s' in
      if isspace c && is_empty r then "" else String c r
  end.

(** [s.strip()] *)
Definition strip (s : string) : string := rstrip (lstrip s).

(** [s.startswith(p)] *)
Definition startswith (s p : string) : bool := prefix p s.

(** [p in s] *)
Fixpoint contains (p s : string) : bool :=
  prefix p s ||
  match s with
  | "" => false
  | String _ s' => contains p s'
  end.

(** [s.split(sep)] for a non-empty [sep]: the pieces between the
    occurrences of [sep] found from left to right without overlap.  The
    result is never empty, so it is computed as a head and a tail;
    [skip] counts the characters of a separator still to pass over. *)
Fixpoint split_go (sep s : string) (skip : nat) : string * list string :=
  match s with
  | "" => ("", [])
  | String c s' =>
      match skip with
      | S k => split_go sep s' k
      | O =>
          if prefix sep s
          then ("", let (h, t) := split_go sep s' (String.length sep - 1) in h :: t)
          else let (h, t) := split_go sep s' 0 in (String c h, t)
      end
  end.

Definition split (sep s : string) : list string :=
  let (h, t) := split_go sep s 0 in h :: t.

(** [sep.join(parts)] *)
Fixpoint join (sep : string) (parts : list string) : string :=
  match parts with
  | [] => ""
  | [p] => p
  | p :: rest => p ++ sep ++ join sep rest
  end.

(** [s.replace(old, new)] for a non-empty [old]. *)
Fixpoint replace_go (old new s : string) (skip : nat) : string :=
  match s with
  | "" => ""
  | String c s' =>
      match skip with
      | S k => replace_go old new s' k
      | O =>
          if prefix old s
          then new ++ replace_go old new s' (String.length old - 1)
          else String c (replace_go old new s' 0)
      end
  end.

Definition replace (old new s : string) : string := replace_go old new s 0.

(** [str(n)] for a natural number. *)
Definition str_of_nat (n : nat) : string :=
  NilEmpty.string_of_uint (Nat.to_uint n).

Definition str_of_N (n : N) : string :=
  NilEmpty.string_of_uint (N.to_uint n).

End PyStr.

(** ** The fragment of Python's [re] that [utils.py] uses

    Every pattern of the program is a run of items, a parenthesised run
    of items (group 1) and a closing run of items; an item is a
    one-character test, alone, repeated greedily ([+]) or repeated
    lazily ([*?]).  Matching backtracks in the order [re] does. *)

Module PyRe.
Import PyStr.

Inductive item : Type :=
| One (p : ascii -> bool)
| Plus (p : ascii -> bool)
| LazyStar (p : ascii -> bool).

Record pattern : Type := Pattern {
  before : list item;
  group : list item;
  after : list item
}.

(** [\s], [\w] and [.] for a [str] pattern. *)
Definition space_class : ascii -> bool := isspace.

Definition word_class (c : ascii) : bool :=
  let n := code c in
  between 48 57 n || between 65 90 n || Nat.eqb n 95 || between 97 122 n
  || Nat.eqb n 170 || between 178 179 n || Nat.eqb n 181
  || between 185 186 n || between 188 190 n
  || between 192 214 n || between 216 246 n || between 248 255 n.

Definition any_char : ascii -> bool := fun _ => true.
Definition not_newline (c : ascii) : bool := negb (Nat.eqb (code c) 10).

(** A literal character, as written and under [re.IGNORECASE]. *)
Definition exactly (c : ascii) : ascii -> bool := Ascii.eqb c.
Definition ignoring_case (c : ascii) : ascii -> bool :=
  fun x => Ascii.eqb (lower_char x) (lower_char c).

Fixpoint literal (test : ascii -> ascii -> bool) (s : string) : list item :=
  match s with
  | "" => []
  | String c s' => One (test c) :: literal test s'
  end.

Section Matcher.
Context {A : Type}.

(** [p+]: the longest run first, then shorter ones. *)
Fixpoint plus_greedy (p : ascii -> bool) (s : string)
    (k : string -> option A) : option A :=
  match s with
  | "" => None
  | String c s' =>
      if p c then
        match plus_greedy p s' k with
        | Some r => Some r
        | None => k s'
        end
      else None
  end.

(** [p*?]: the empty run first, then longer ones. *)
Fixpoint star_lazy (p : ascii -> bool) (s : string)
    (k : string -> option A) : option A :=
  match k s with
  | Some r => Some r
  | None =>
      match s with
      | "" => None
      | String c s' => if p c then star_lazy p s' k else None
      end
  end.

Fixpoint match_items (items : list item) (s : string)
    (k : string -> option A) : option A :=
  match items with
  | [] => k s
  | One p :: rest =>
      match s with
      | "" => None
      | String c s' => if p c then match_items rest s' k else None
      end
  | Plus p :: rest => plus_greedy p s (fun s' => match_items rest s' k)
  | LazyStar p :: rest => star_lazy p s (fun s' => match_items rest s' k)
  end.

End Matcher.

(** A match anchored at the start of [s]; the value is [group(1)]. *)
Definition match_here (r : pattern) (s : string) : option string :=
  match_items (before r) s (fun s1 =>
  match_items (group r) s1 (fun s2 =>
  match_items (after r) s2 (fun _ =>
    Some (substring 0 (String.length s1 - String.length s2) s1)))).

(** [re.search(r, s)]: the match at the leftmost position that has one. *)
Fixpoint search (r : pattern) (s : string) : option string :=
  match match_here r s with
  | Some g => Some g
  | None =>
      match s with
      | "" => None
      | String _ s' => search r s'
      end
  end.

End PyRe.

(** ** [utils.py] *)

Module Utils.
Import PyStr PyRe.

Definition sql_keywords : list string :=
  ["SELECT"; "WITH"; "UPDATE"; "DELETE"; "INSERT"].

Definition placeholder (s : string) : string :=
  replace "your_table_name" "store_sales_data" s.

(** [extract_sql_code(response)], on the text of the response (its
    [content] attribute, or [str(response)]).  The index [1] taken after
    the split by the fence marker exists because the marker occurs. *)
Definition extract_sql_code (response : string) : string :=
  let text := strip (replace "SQLQuery:" "" response) in
  let text := placeholder text in
  if contains "```sql" (lower text) then
    let sql :=
      strip (nth 0 (split "```" (nth 1 (split "```sql" (lower text)) "")) "")
    in placeholder sql
  else
    let in_backticks :=
      if contains "`" text then
        find (fun part =>
                existsb (fun keyword => contains keyword (upper part))
                        sql_keywords)
             (split "`" text)
      else None in
    match in_backticks with
    | Some part => placeholder (strip part)
    | None =>
        match find (fun line =>
                      existsb (fun keyword =>
                                 startswith (strip (upper line)) keyword)
                              sql_keywords)
                   (split nl text) with
        | Some line => placeholder (strip line)
        | None => placeholder (strip text)
        end
    end.

(** The prompt of [tag_question_type], an f-string around the question. *)
Definition tag_prompt (question : string) : string :=
  nl ++
  "    Classify the following user query as either 'chart' or 'table'. " ++ nl ++
  "    If the user is asking for numerical trends, visualizations, or distributions, return 'chart'. " ++ nl ++
  "    Otherwise, return 'table'." ++ nl ++
  "    " ++ nl ++
  "    User query: " ++ dq ++ question ++ dq ++ nl ++
  "    Output:" ++ nl ++
  "    ".

(** [re.search(r"```python\n(.*?)\n```", text, re.DOTALL)] *)
Definition python_fence : pattern :=
  Pattern (literal exactly ("```python" ++ nl))
          [LazyStar any_char]
          (literal exactly (nl ++ "```")).

Definition python_keywords : list string :=
  ["def "; "import "; "plt."; "sns."; "px."; "fig."].

Definition has_python_keyword (line : string) : bool :=
  existsb (fun keyword => contains keyword line) python_keywords.

(** The loop of [extract_python_code]: lines are appended in order. *)
Fixpoint collect_code (lines extracted_code : list string) : list string :=
  match lines with
  | [] => extracted_code
  | line :: rest =>
      if has_python_keyword line
      then collect_code rest (extracted_code ++ [line])%list
      else collect_code rest extracted_code
  end.

(** [extract_python_code(response)], on the text of the response; the
    [print] of the text is not modelled. *)
Definition extract_python_code (response : string) : string :=
  let text := strip (replace "Python Script:" "" response) in
  match search python_fence text with
  | Some code_block => strip code_block
  | None =>
      let lines := split nl text in
      match collect_code lines [] with
      | [] => strip text
      | extracted_code => strip (join nl extracted_code)
      end
  end.

(** The first loop of [split_sql_statements]. *)
Fixpoint drop_comment_lines (lines cleaned_lines : list string)
    : list string :=
  match lines with
  | [] => cleaned_lines
  | line :: rest =>
      if startswith (strip line) "--"
      then drop_comment_lines rest cleaned_lines
      else drop_comment_lines rest (cleaned_lines ++ [line])%list
  end.

Definition split_sql_statements (sql_text : string) : list string :=
  if is_empty sql_text then []
  else
    let lines := split nl sql_text in
    let cleaned_lines := drop_comment_lines lines [] in
    let cleaned_sql := join nl cleaned_lines in
    map strip
        (filter (fun stmt => negb (is_empty (strip stmt)))
                (split ";" cleaned_sql)).

Definition is_multi_statement_sql (sql_query : string) : bool :=
  if is_empty sql_query then false
  else Nat.ltb 1 (List.length (split_sql_statements sql_query)).

(** [re.search(r'FROM\s+(\w+)', ..., re.IGNORECASE)] *)
Definition from_clause : pattern :=
  Pattern (literal ignoring_case "FROM" ++ [Plus space_class])%list
          [Plus word_class]
          [].

(** [re.search(r'--.*?(\w+)\s+table', ..., re.IGNORECASE)] *)
Definition table_comment : pattern :=
  Pattern (literal exactly "--" ++ [LazyStar not_newline])%list
          [Plus word_class]
          (Plus space_class :: literal ignoring_case "table").

Definition extract_table_name_from_sql (sql_statement : string) : string :=
  match search from_clause sql_statement with
  | Some name => name
  | None =>
      match search table_comment sql_statement with
      | Some name => name
      | None => "Unknown Table"
      end
  end.

End Utils.

(** ** Python values, exceptions and effects *)

Module Py.

(** The values the pipeline state holds.  A [dict] keeps its keys in
    insertion order; a frame is what [pd.read_sql] and [pd.DataFrame]
    build, its column labels possibly repeated. *)
#[local] Unset Elimination Schemes.
Inductive PyVal : Type :=
| VNone
| VBool (b : bool)
| VInt (z : Z)
| VStr (s : string)
| VList (items : list PyVal)
| VDict (entries : list (string * PyVal))
| VFrame (columns : list (string * list PyVal)).
#[local] Set Elimination Schemes.

Definition Dict : Type := list (string * PyVal).
Definition Frame : Type := list (string * list PyVal).

(** [d.get(key)] as an option, [key in d], and [d[key] = v]. *)
Fixpoint dict_get (key : string) (d : Dict) : option PyVal :=
  match d with
  | [] => None
  | (k, v) :: rest => if String.eqb k key then Some v else dict_get key rest
  end.

Definition dict_has (key : string) (d : Dict) : bool :=
  match dict_get key d with Some _ => true | None => false end.

Fixpoint dict_set (key : string) (v : PyVal) (d : Dict) : Dict :=
  match d with
  | [] => [(key, v)]
  | (k, v0) :: rest =>
      if String.eqb k key then (k, v) :: rest
      else (k, v0) :: dict_set key v rest
  end.

(** Truth value of an object other than a frame, as [if x] and [not x]
    take it; the test of a value that may be a frame is [truth_value]
    below. *)
Definition truthy (v : PyVal) : bool :=
  match v with
  | VNone => false
  | VBool b => b
  | VInt z => negb (Z.eqb z 0)
  | VStr s => negb (PyStr.is_empty s)
  | VList items => match items with [] => false | _ => true end
  | VDict entries => match entries with [] => false | _ => true end
  | VFrame _ => true
  end.

(** An exception object: its class name and what [str(e)] gives. *)
Record PyExn : Type := Exn { exn_class : string; exn_str : string }.

(** The test an [if] makes of an object: a frame has no truth value. *)
Definition truth_value (v : PyVal) : PyExn + bool :=
  match v with
  | VFrame _ =>
      inl (Exn "ValueError"
               "The truth value of a DataFrame is ambiguous. Use a.empty, a.bool(), a.item(), a.any() or a.all().")
  | _ => inr (truthy v)
  end.

Definition KeyError (key : string) : PyExn :=
  Exn "KeyError" ("'" ++ key ++ "'").

(** How a call ends: it returns, it raises an instance of [Exception],
    or it raises one of the exceptions outside [Exception]
    ([SystemExit] and the like), which [except Exception] lets through. *)
Inductive Outcome (A : Type) : Type :=
| Ret (a : A)
| Raise (e : PyExn)
| Unwind (e : PyExn).
Arguments Ret {A} a.
Arguments Raise {A} e.
Arguments Unwind {A} e.

(** [len(x)] *)
Definition py_len (v : PyVal) : PyExn + nat :=
  match v with
  | VStr s => inr (String.length s)
  | VList items => inr (List.length items)
  | VDict entries => inr (List.length entries)
  | VFrame columns =>
      inr (match columns with [] => 0 | (_, cells) :: _ => List.length cells end)
  | VNone => inl (Exn "TypeError" "object of type 'NoneType' has no len()")
  | VBool _ => inl (Exn "TypeError" "object of type 'bool' has no len()")
  | VInt _ => inl (Exn "TypeError" "object of type 'int' has no len()")
  end.

(** [{col: df[col].tolist() for col in df.columns}].  Under a repeated
    label [df[col]] is a frame, which has no [tolist]. *)
Fixpoint count_label (col : string) (labels : list string) : nat :=
  match labels with
  | [] => 0
  | l :: rest => (if String.eqb l col then 1 else 0) + count_label col rest
  end.

Fixpoint columns_to_lists (labels : list string) (df : Frame) (acc : Dict)
    : PyExn + Dict :=
  match labels with
  | [] => inr acc
  | col :: rest =>
      if Nat.eqb (count_label col (map fst df)) 1 then
        match find (fun c => String.eqb (fst c) col) df with
        | Some (_, cells) =>
            columns_to_lists rest df (dict_set col (VList cells) acc)
        | None => inl (KeyError col)
        end
      else inl (Exn "AttributeError"
                    "'DataFrame' object has no attribute 'tolist'")
  end.

Definition frame_to_dict (df : Frame) : PyExn + Dict :=
  columns_to_lists (map fst df) df [].

(** The process-wide state: the figures [pyplot] holds open, and
    everything the collaborators own (database, files, clock, model). *)
Record World (Env : Type) : Type := MkWorld {
  open_figures : nat;
  env : Env
}.
Arguments MkWorld {Env} _ _.
Arguments open_figures {Env} _.
Arguments env {Env} _.

(** [plt.close('all')] and [plt.figure(...)] *)
Definition plt_close_all {Env} (w : World Env) : World Env :=
  MkWorld 0 (env w).
Definition plt_figure {Env} (w : World Env) : World Env :=
  MkWorld (S (open_figures w)) (env w).

(** Computations over the world. *)
Definition M (Env A : Type) : Type := World Env -> Outcome A * World Env.

Definition ret {Env A} (a : A) : M Env A := fun w => (Ret a, w).

Definition raise {Env A} (e : PyExn) : M Env A := fun w => (Raise e, w).

Definition bind {Env A B} (m : M Env A) (f : A -> M Env B) : M Env B :=
  fun w =>
    match m w with
    | (Ret a, w') => f a w'
    | (Raise e, w') => (Raise e, w')
    | (Unwind e, w') => (Unwind e, w')
    end.

(** A call that returns or raises an [Exception]. *)
Definition call {Env A} (f : World Env -> (PyExn + A) * World Env)
    : M Env A :=
  fun w =>
    match f w with
    | (inr a, w') => (Ret a, w')
    | (inl e, w') => (Raise e, w')
    end.

Definition pure_call {Env A} (r : PyExn + A) : M Env A :=
  fun w => match r with inr a => (Ret a, w) | inl e => (Raise e, w) end.

Definition effect {Env} (f : World Env -> World Env) : M Env unit :=
  fun w => (Ret tt, f w).

(** [try: body  except Exception as e: handler(e)] *)
Definition try_except {Env A} (body : M Env A) (handler : PyExn -> M Env A)
    : M Env A :=
  fun w =>
    match body w with
    | (Raise e, w') => handler e w'
    | other => other
    end.

(** [try: body  finally: cleanup], for a cleanup that cannot raise. *)
Definition try_finally {Env A} (body : M Env A)
    (cleanup : World Env -> World Env) : M Env A :=
  fun w => let (r, w') := body w in (r, cleanup w').

End Py.

Declare Scope py_scope.
Delimit Scope py_scope with py.
Notation "x <- m ;; k" := (Py.bind m (fun x => k))
  (at level 61, m at next level, right associativity) : py_scope.
Notation "m ;;; k" := (Py.bind m (fun _ => k))
  (at level 61, right associativity) : py_scope.

(** ** [sql_agent_langgraph.py] *)

Module Agent.
Import PyStr Utils Py.
Local Open Scope py_scope.

(** [GraphState], a [TypedDict]: a key may be absent.  [next] is the key
    the router adds for the conditional edge. *)
Record GraphState : Type := MkState {
  question : option string;
  sql_query : option string;
  data : option PyVal;
  tag : option string;
  chart_script : option string;
  chart_output : option PyVal;
  final_output : option PyVal;
  next : option string
}.

Definition set_tag (v : string) (s : GraphState) : GraphState :=
  MkState (question s) (sql_query s) (data s) (Some v) (chart_script s)
          (chart_output s) (final_output s) (next s).
Definition set_sql_query (v : string) (s : GraphState) : GraphState :=
  MkState (question s) (Some v) (data s) (tag s) (chart_script s)
          (chart_output s) (final_output s) (next s).
Definition set_data (v : PyVal) (s : GraphState) : GraphState :=
  MkState (question s) (sql_query s) (Some v) (tag s) (chart_script s)
          (chart_output s) (final_output s) (next s).
Definition set_chart_script (v : string) (s : GraphState) : GraphState :=
  MkState (question s) (sql_query s) (data s) (tag s) (Some v)
          (chart_output s) (final_output s) (next s).
Definition set_chart_output (v : PyVal) (s : GraphState) : GraphState :=
  MkState (question s) (sql_query s) (data s) (tag s) (chart_script s)
          (Some v) (final_output s) (next s).
Definition set_final_output (v : PyVal) (s : GraphState) : GraphState :=
  MkState (question s) (sql_query s) (data s) (tag s) (chart_script s)
          (chart_output s) (Some v) (next s).
Definition set_next (v : string) (s : GraphState) : GraphState :=
  MkState (question s) (sql_query s) (data s) (tag s) (chart_script s)
          (chart_output s) (final_output s) (Some v).

(** What the pipeline is given from outside: the database connection,
    the two model chains, [pandas], the interpreter running the chart
    script, and the file and clock calls of [execute_chart_code]. *)
Class Collaborators (Env : Type) : Type := {
  (** [pd.read_sql(statement, conn)] *)
  read_sql : string -> World Env -> (PyExn + Frame) * World Env;
  (** [llm.invoke(prompt).content] *)
  llm_invoke : string -> World Env -> (PyExn + string) * World Env;
  (** [sql_generator.invoke({"question": question})] *)
  sql_generator_invoke : string -> World Env -> (PyExn + string) * World Env;
  (** [pd.DataFrame(data)] *)
  pd_DataFrame : PyVal -> PyExn + Frame;
  (** [repr(x)], as an f-string formats a value *)
  py_repr : PyVal -> string;
  (** [exec(chart_script, {'df': df, 'plt': plt, 'pd': pd, 'np': np})] *)
  exec_script : string -> Frame -> World Env -> Outcome unit * World Env;
  (** [os.makedirs(output_dir, exist_ok=True)] *)
  os_makedirs : string -> World Env -> (PyExn + unit) * World Env;
  (** [os.path.join(output_dir, filename)] *)
  os_path_join : string -> string -> string;
  (** [int(time.time())] *)
  time_time : World Env -> N;
  (** [''.join(random.choices(string.ascii_lowercase + string.digits, k=6))] *)
  random_choices : World Env -> string * World Env;
  (** [plt.savefig(output_path, ...)] *)
  plt_savefig : string -> World Env -> (PyExn + unit) * World Env
}.

Section Nodes.
Context {Env : Type} `{C : Collaborators Env}.

(** [state[key]] *)
Definition item {A} (key : string) (field : option A) : M Env A :=
  match field with
  | Some v => ret v
  | None => raise (KeyError key)
  end.

Definition tag_question_type (question : string) : M Env string :=
  content <- call (llm_invoke (tag_prompt question)) ;;
  let response := lower (strip content) in
  let response :=
    if negb (existsb (String.eqb response) ["chart"; "table"])
    then "table" else response in
  ret response.

Definition process_question (state : GraphState) : M Env GraphState :=
  question <- item "question" (question state) ;;
  tag <- tag_question_type question ;;
  ret (set_tag tag state).

Definition generate_sql (state : GraphState) : M Env GraphState :=
  question <- item "question" (question state) ;;
  raw_sql <- call (sql_generator_invoke question) ;;
  let sql_query := extract_sql_code raw_sql in
  ret (set_sql_query sql_query state).

(** The body of the [try] in the loop of [convert_dataframe]. *)
Definition run_statement (statement : string) : M Env PyVal :=
  df <- call (read_sql statement) ;;
  let table_name := extract_table_name_from_sql statement in
  columns <- pure_call (frame_to_dict df) ;;
  ret (VDict [("table_name", VStr table_name);
              ("dataframe", VDict columns);
              ("sql_statement", VStr statement)]).

(** Its [except Exception as e] clause, for statement number [i]. *)
Definition statement_error (i : nat) (statement : string) (e : PyExn)
    : PyVal :=
  VDict [("table_name", VStr ("Error in Statement " ++ str_of_nat (i + 1)));
         ("error", VStr (exn_str e));
         ("sql_statement", VStr statement)].

(** [for i, statement in enumerate(statements)], from index [i] on. *)
Fixpoint execute_statements (i : nat) (statements : list string)
    (multi_table_data : list PyVal) : M Env (list PyVal) :=
  match statements with
  | [] => ret multi_table_data
  | statement :: rest =>
      entry <- try_except (run_statement statement)
                          (fun e => ret (statement_error i statement e)) ;;
      execute_statements (S i) rest (multi_table_data ++ [entry])%list
  end.

Definition convert_dataframe (state : GraphState) : M Env GraphState :=
  sql_query <- item "sql_query" (sql_query state) ;;
  if is_multi_statement_sql sql_query then
    let statements := split_sql_statements sql_query in
    multi_table_data <- execute_statements 0 statements [] ;;
    ret (set_data (VDict [("multi_table", VBool true);
                          ("tables", VList multi_table_data)]) state)
  else
    df <- call (read_sql sql_query) ;;
    columns <- pure_call (frame_to_dict df) ;;
    ret (set_data (VDict columns) state).

Definition conditional_router (state : GraphState) : GraphState :=
  let tag := match tag state with Some t => t | None => "table" end in
  set_next tag state.

(** [list(data.keys())] *)
Definition data_keys (data : PyVal) : PyExn + PyVal :=
  match data with
  | VDict d => inr (VList (map (fun kv => VStr (fst kv)) d))
  | _ => inl (Exn "AttributeError" "object has no attribute 'keys'")
  end.

(** The prompt of [generate_chart_instructions]. *)
Definition chart_prompt (question : string) (keys data : PyVal) : string :=
  nl ++
  "    Analyze the following question and data visualization requirements:" ++ nl ++
  "    Question: " ++ dq ++ question ++ dq ++ nl ++
  "    Data Columns: " ++ py_repr keys ++ nl ++
  nl ++
  "    Determine the most appropriate chart type from the " ++ dq ++ question ++ dq ++ nl ++
  "    - Bar Chart: Compare quantities across different categories" ++ nl ++
  "    - Pie Chart: Show proportional distribution of a whole" ++ nl ++
  "    - Line Chart: Display trends over time" ++ nl ++
  "    - Histogram: Show distribution of numerical data" ++ nl ++
  "    - Scatter Plot: Explore relationship between two variables" ++ nl ++
  "    -desnisty line graph: line graph to show the how the distribution is spread." ++ nl ++
  nl ++
  "    Generate a Python visualization script using matplotlib that:" ++ nl ++
  "    1. Chooses the most suitable chart type based on the question" ++ nl ++
  "    2. Uses clear, descriptive labels" ++ nl ++
  "    3. Adds a meaningful title" ++ nl ++
  "    4. Ensures readability" ++ nl ++
  "    5. Highlights key insights from the data" ++ nl ++
  nl ++
  "    Provide ONLY the pure Python code for visualization." ++ nl ++
  "    Directly use the DataFrame " ++ py_repr data ++ " for plotting." ++ nl ++
  "    Do NOT wrap the code in a function." ++ nl ++
  "    ".

Definition generate_chart_instructions (state : GraphState)
    : M Env GraphState :=
  question <- item "question" (question state) ;;
  match data state with
  | None | Some VNone =>
      ret (set_chart_script "Error: No DataFrame in state." state)
  | Some data =>
      keys <- pure_call (data_keys data) ;;
      let prompt := chart_prompt question keys data in
      response <- call (llm_invoke prompt) ;;
      let chart_script := extract_python_code response in
      ret (set_chart_script chart_script state)
  end.

(** The body of the [try] in [execute_chart_code]. *)
Definition render_chart (chart_script : string) (df : Frame)
    (state : GraphState) : M Env GraphState :=
  effect plt_figure ;;;
  exec_script chart_script df ;;;
  let output_dir := "generated_charts" in
  call (os_makedirs output_dir) ;;;
  timestamp <- (fun w => (Ret (time_time w), w)) ;;
  random_str <- (fun w => let (r, w') := random_choices w in (Ret r, w')) ;;
  let filename :=
    "chart_" ++ str_of_N timestamp ++ "_" ++ random_str ++ ".png" in
  let output_path := os_path_join output_dir filename in
  call (plt_savefig output_path) ;;;
  effect plt_close_all ;;;
  ret (set_chart_output (VStr output_path) state).

Definition execute_chart_code (state : GraphState) : M Env GraphState :=
  let chart_script :=
    match chart_script state with Some s => s | None => "" end in
  if is_empty chart_script || startswith chart_script "Error" then
    ret (set_chart_output (VStr "Error: No chart script available") state)
  else
    let df_data :=
      match data state with Some d => d | None => VDict [] end in
    df <- pure_call (pd_DataFrame df_data) ;;
    effect plt_close_all ;;;
    try_finally
      (try_except
         (render_chart chart_script df state)
         (fun e =>
            effect plt_close_all ;;;
            ret (set_chart_output
                   (VStr ("Error executing chart code: " ++ exn_str e))
                   state)))
      plt_close_all.

Definition creating_error (e : PyExn) : PyVal :=
  VStr ("Error creating DataFrame: " ++ exn_str e).

(** The [try] statement of [state_printer], on a [data] that is a dict. *)
Definition tabular_outputs (d : Dict) (outputs : Dict) : Dict :=
  let multi_table :=
    match dict_get "multi_table" d with Some v => v | None => VBool false end
  in
  match truth_value multi_table with
  | inl e => dict_set "error" (creating_error e) outputs
  | inr true =>
      match dict_get "tables" d with
      | None => dict_set "error" (creating_error (KeyError "tables")) outputs
      | Some tables =>
          let outputs := dict_set "multi_table_data" tables outputs in
          match py_len tables with
          | inr _ => outputs
          | inl e => dict_set "error" (creating_error e) outputs
          end
      end
  | inr false =>
      match pd_DataFrame (VDict d) with
      | inr df => dict_set "dataframe" (VFrame df) outputs
      | inl e => dict_set "error" (creating_error e) outputs
      end
  end.

Definition state_printer (state : GraphState) : GraphState :=
  let outputs : Dict := [] in
  let outputs :=
    match data state with
    | Some (VDict d) => tabular_outputs d outputs
    | _ => outputs
    end in
  let outputs :=
    match chart_output state with
    | Some chart => dict_set "chart" chart outputs
    | None => outputs
    end in
  let outputs :=
    if negb (truthy (VDict outputs))
    then dict_set "message" (VStr "No valid output found.") outputs
    else outputs in
  set_final_output (VDict outputs) state.

(** *** [build_dag]: the nodes and the edges *)

Inductive Node : Type :=
| node_process_question
| node_generate_sql
| node_convert_dataframe
| node_conditional_router
| node_generate_chart_instructions
| node_execute_chart_code
| node_state_printer.

Definition entry_point : Node := node_process_question.

Definition node_action (n : Node) (state : GraphState) : M Env GraphState :=
  match n with
  | node_process_question => process_question state
  | node_generate_sql => generate_sql state
  | node_convert_dataframe => convert_dataframe state
  | node_conditional_router => ret (conditional_router state)
  | node_generate_chart_instructions => generate_chart_instructions state
  | node_execute_chart_code => execute_chart_code state
  | node_state_printer => ret (state_printer state)
  end.

(** The edge leaving a node; [None] is [END].  The conditional edge
    looks the router's ["next"] up in its mapping. *)
Definition successor (n : Node) (state : GraphState) : M Env (option Node) :=
  match n with
  | node_process_question => ret (Some node_generate_sql)
  | node_generate_sql => ret (Some node_convert_dataframe)
  | node_convert_dataframe => ret (Some node_conditional_router)
  | node_conditional_router =>
      branch <- item "next" (next state) ;;
      if String.eqb branch "table" then ret (Some node_state_printer)
      else if String.eqb branch "chart"
      then ret (Some node_generate_chart_instructions)
      else raise (KeyError branch)
  | node_generate_chart_instructions => ret (Some node_execute_chart_code)
  | node_execute_chart_code => ret (Some node_state_printer)
  | node_state_printer => ret None
  end.

(** Running the compiled graph from node [n]; the nodes run are logged.
    The step bound is the graph library's recursion limit. *)
Fixpoint run_from (steps : nat) (n : Node) (state : GraphState)
    (visited : list Node) : M Env (GraphState * list Node) :=
  match steps with
  | O => raise (Exn "GraphRecursionError" "Recursion limit reached")
  | S steps' =>
      state' <- node_action n state ;;
      following <- successor n state' ;;
      match following with
      | None => ret (state', (visited ++ [n])%list)
      | Some n' => run_from steps' n' state' (visited ++ [n])%list
      end
  end.

Definition recursion_limit : nat := 25.

Definition initial_state (question : string) : GraphState :=
  MkState (Some question) None None None None None None None.

(** [app.invoke({"question": question})] *)
Definition invoke (question : string) : M Env (GraphState * list Node) :=
  run_from recursion_limit entry_point (initial_state question) [].

End Nodes.
End Agent.

(** ** Vocabulary of the statements *)

Module Vocabulary.
Import PyStr PyRe Utils Py Agent.

(** A field of a result entry. *)
Definition entry_field (key : string) (entry : PyVal) : option PyVal :=
  match entry with
  | VDict d => dict_get key d
  | _ => None
  end.

Definition has_error (entry : PyVal) : bool :=
  match entry_field "error" entry with Some _ => true | None => false end.

Definition has_columns (entry : PyVal) : bool :=
  match entry_field "dataframe" entry with
  | Some (VDict _) => true
  | _ => false
  end.

Definition raised {A} (r : Outcome A) : bool :=
  match r with Raise _ => true | _ => false end.

(** How each statement of a batch ends when the statements are run one
    after the other on the connection, each in the world the previous
    ones left. *)
Fixpoint outcomes {Env} `{Collaborators Env} (statements : list string)
    (w : World Env) : list (Outcome PyVal) :=
  match statements with
  | [] => []
  | statement :: rest =>
      let (r, w') := run_statement statement w in r :: outcomes rest w'
  end.

(** What the database answers to each statement of a batch, the
    statements run one after the other on the connection, each in the
    world the previous ones left; and the world after the last. *)
Fixpoint executions {Env} `{Collaborators Env} (statements : list string)
    (w : World Env) : list (PyExn + Frame) * World Env :=
  match statements with
  | [] => ([], w)
  | statement :: rest =>
      let (r, w1) := read_sql statement w in
      let (answers, w') := executions rest w1 in
      (r :: answers, w')
  end.

Definition refused {A} (r : PyExn + A) : bool :=
  match r with inl _ => true | inr _ => false end.

(** The columns of a frame as a dict of lists. *)
Definition columns_dict (df : Frame) : Dict :=
  map (fun column => (fst column, VList (snd column))) df.

(** A frame no column label of which is repeated; an answer that is
    such a frame, or an exception. *)
Definition distinct_labels (df : Frame) : bool :=
  forallb (fun col => Nat.eqb (count_label col (map fst df)) 1) (map fst df).

Definition answered_distinct (r : PyExn + Frame) : bool :=
  match r with inr df => distinct_labels df | inl _ => true end.

(** The entry of statement number [i], counted from 0, given the answer
    of the database, and the entries of a batch. *)
Definition batch_entry (i : nat) (statement : string) (r : PyExn + Frame)
    : PyVal :=
  match r with
  | inr df =>
      VDict [("table_name", VStr (extract_table_name_from_sql statement));
             ("dataframe", VDict (columns_dict df));
             ("sql_statement", VStr statement)]
  | inl e =>
      VDict [("table_name", VStr ("Error in Statement " ++ str_of_nat (i + 1)));
             ("error", VStr (exn_str e));
             ("sql_statement", VStr statement)]
  end.

Fixpoint batch_entries (i : nat) (statements : list string)
    (answers : list (PyExn + Frame)) : list PyVal :=
  match statements, answers with
  | statement :: rest, r :: answers' =>
      batch_entry i statement r :: batch_entries (S i) rest answers'
  | _, _ => []
  end.

(** A line that is not a full-line comment; a piece that is not blank. *)
Definition not_comment (line : string) : bool :=
  negb (startswith (strip line) "--").

Definition not_blank (stmt : string) : bool := negb (is_empty (strip stmt)).

(** A model response with a fenced query in mixed case. *)
Definition fenced_answer : string :=
  "Here is the query:" ++ nl ++
  "```sql" ++ nl ++
  "SELECT * FROM Orders WHERE name = 'Bob'" ++ nl ++
  "```" ++ nl ++
  "It lists Bob's orders.".




(** The text [extract_python_code] works on. *)
Definition cleaned_script_text (response : string) : string :=
  strip (replace "Python Script:" "" response).

(** The entries a batch puts in its result, given how its statements
    ended: the dict of the run for a statement that returned, the error
    dict with the statement's number for one that raised. *)
Inductive Tables : nat -> list string -> list (Outcome PyVal) -> list PyVal
                   -> Prop :=
| Tables_nil (i : nat) : Tables i [] [] []
| Tables_ok (i : nat) statement rest outs entries columns :
    Tables (S i) rest outs entries ->
    let entry := VDict [("table_name",
                         VStr (extract_table_name_from_sql statement));
                        ("dataframe", VDict columns);
                        ("sql_statement", VStr statement)] in
    Tables i (statement :: rest) (Ret entry :: outs) (entry :: entries)
| Tables_failed (i : nat) statement rest outs entries e :
    Tables (S i) rest outs entries ->
    Tables i (statement :: rest) (Raise e :: outs)
           (statement_error i statement e :: entries).

(** The multi-table value [convert_dataframe] stores under ["data"]. *)
Definition multi_table_result (tables : list PyVal) : PyVal :=
  VDict [("multi_table", VBool true); ("tables", VList tables)].

(** What [execute_chart_code] reads from the state, and the value it
    stores when the script raised [e]. *)
Definition script_of (state : GraphState) : string :=
  match chart_script state with Some s => s | None => "" end.

Definition frame_source (state : GraphState) : PyVal :=
  match data state with Some d => d | None => VDict [] end.

Definition chart_error (e : PyExn) : PyVal :=
  VStr ("Error executing chart code: " ++ exn_str e).

(** The two paths through the graph. *)
Definition table_path : list Node :=
  [node_process_question; node_generate_sql; node_convert_dataframe;
   node_conditional_router; node_state_printer].

Definition chart_path : list Node :=
  [node_process_question; node_generate_sql; node_convert_dataframe;
   node_conditional_router; node_generate_chart_instructions;
   node_execute_chart_code; node_state_printer].

(** The dict a state's [final_output] holds. *)
Definition outputs_of (state : GraphState) : Dict :=
  match final_output state with
  | Some (VDict outputs) => outputs
  | _ => []
  end.

(** A character that [str.lower] leaves as it is. *)
Definition is_lowered (c : ascii) : bool := Ascii.eqb (lower_char c) c.

(** Any character but [a]. *)
Definition other_than (a : ascii) : ascii -> bool :=
  fun c => negb (Ascii.eqb c a).

(** What [state_printer] reads as the multi-table flag of a data dict:
    [data.get("multi_table", False)]. *)
Definition multi_table_flag (d : Dict) : PyVal :=
  match dict_get "multi_table" d with Some v => v | None => VBool false end.

(** The chart entry of the final output of a state. *)
Definition chart_slot (state : GraphState) : Dict :=
  match chart_output state with
  | Some chart => [("chart", chart)]
  | None => []
  end.

(** The characters of a text. *)
Definition chars (s : string) : list ascii := list_ascii_of_string s.

Definition all_chars (p : ascii -> bool) (s : string) : bool :=
  forallb p (chars s).

(** The first character of [s], if any, fails [p]. *)
Definition stops (p : ascii -> bool) (s : string) : bool :=
  match s with
  | "" => true
  | String c _ => negb (p c)
  end.


(** The result of a graph run, when it returned. *)
Definition final_outputs {Env} (r : Outcome (GraphState * list Node) * World Env)
    : option Dict :=
  match fst r with
  | Ret (state, _) =>
      match final_output state with
      | Some (VDict outputs) => Some outputs
      | _ => None
      end
  | _ => None
  end.

Definition nodes_run {Env} (r : Outcome (GraphState * list Node) * World Env)
    : list Node :=
  match fst r with
  | Ret (_, visited) => visited
  | _ => []
  end.

Definition is_chart_node (n : Node) : bool :=
  match n with
  | node_generate_chart_instructions | node_execute_chart_code => true
  | _ => false
  end.

End Vocabulary.

(** ** A concrete set of collaborators

    A small database, a model that answers with fixed texts and an
    interpreter that fails on scripts containing [raise]; the
    environment is the list of SQL texts run so far. *)

Module Demo.
Import PyStr Utils Py Agent.

Definition Env : Type := list string.

Definition log {A} (entry : string) (r : PyExn + A) (w : World Env)
    : (PyExn + A) * World Env :=
  (r, MkWorld (open_figures w) (env w ++ [entry])%list).

Definition demo_read_sql (statement : string) : PyExn + Frame :=
  if String.eqb statement "SELECT 1" then inr [("1", [VInt 1])]
  else if String.eqb statement "SELECT 2" then inr [("2", [VInt 2])]
  else if String.eqb statement "SELECT 1 AS multi_table"
  then inr [("multi_table", [VInt 1])]
  else if String.eqb statement "SELECT region, total FROM sales"
  then inr [("region", [VStr "north"; VStr "south"]);
            ("total", [VInt 10; VInt 20])]
  else if String.eqb statement "SELECT total, total FROM sales"
  then inr [("total", [VInt 10; VInt 20]); ("total", [VInt 10; VInt 20])]
  else inl (Exn "DatabaseError" ("Execution failed on sql: " ++ statement)).

Definition demo_frame (v : PyVal) : PyExn + Frame :=
  match v with
  | VNone => inr []
  | VDict d =>
      inr (map (fun kv =>
                  (fst kv,
                   match snd kv with VList cells => cells | x => [x] end))
               d)
  | _ => inl (Exn "ValueError" "DataFrame constructor not properly called!")
  end.

Definition demo_exec (script : string) (df : Frame) (w : World Env)
    : Outcome unit * World Env :=
  if contains "sys.exit" script
  then (Unwind (Exn "SystemExit" "1"), plt_figure w)
  else if contains "raise" script
  then (Raise (Exn "ValueError" "bad chart"), plt_figure w)
  else (Ret tt, w).

(** The collaborators of a run in which the model tags the question
    [answer], writes the query [sql] and proposes the chart script
    [script]. *)
Definition collaborators (answer sql script : string) : Collaborators Env := {|
  read_sql := fun statement => log statement (demo_read_sql statement);
  llm_invoke := fun prompt w =>
    (inr (if startswith prompt (nl ++ "    Classify") then answer else script),
     w);
  sql_generator_invoke := fun _ w => (inr sql, w);
  pd_DataFrame := demo_frame;
  py_repr := fun _ => "<object>";
  exec_script := demo_exec;
  os_makedirs := fun _ w => (inr tt, w);
  os_path_join := fun dir file => dir ++ "/" ++ file;
  time_time := fun _ => 1700000000%N;
  random_choices := fun w => ("k3x9qa", w);
  plt_savefig := fun _ w => (inr tt, w)
|}.

Definition world0 : World Env := MkWorld 2 [].

(** A state of the chart branch: one column of data and a script that
    raises. *)
Definition failing_script : string := "plt.bar(df.total); raise ValueError".

Definition chart_state : GraphState :=
  set_chart_script failing_script
    (set_data (VDict [("total", VList [VInt 10; VInt 20])])
       (initial_state "plot the totals")).

(** A state whose query is a batch of three statements, the second
    malformed. *)
Definition batch_query : string := "SELECT 1; SELEC 2; SELECT 2;".

Definition batch_state : GraphState :=
  set_sql_query batch_query (initial_state "compare the two values").

(** The state a run ended with, and its three sample runs. *)
Definition run_state (r : Outcome (GraphState * list Node) * World Env)
    : GraphState :=
  match fst r with
  | Ret (state, _) => state
  | _ => initial_state ""
  end.

Definition run_visited (r : Outcome (GraphState * list Node) * World Env)
    : list Node :=
  match fst r with
  | Ret (_, visited) => visited
  | _ => []
  end.

Definition table_run : Outcome (GraphState * list Node) * World Env :=
  @invoke _ (collaborators "table" "SELECT 1" failing_script)
     "list it" world0.

Definition chart_run : Outcome (GraphState * list Node) * World Env :=
  @invoke _ (collaborators "chart" "SELECT region, total FROM sales"
                           failing_script)
     "plot it" world0.

(** States of the chart branch: a script that leaves the interpreter, a
    script that draws, and a data value no frame can be built from. *)
Definition exit_state : GraphState :=
  set_chart_script "import sys; sys.exit(1)" chart_state.

Definition drawing_state : GraphState :=
  set_chart_script "plt.bar(df.total)" chart_state.

Definition unframed_state : GraphState :=
  set_data (VInt 3) chart_state.

(** A batch of two well-formed statements, the second of which selects
    one column twice. *)
Definition repeated_query : string :=
  "SELECT 1; SELECT total, total FROM sales".

Definition repeated_state : GraphState :=
  set_sql_query repeated_query (initial_state "show the totals twice").

(** [pd.DataFrame] as pandas builds a frame from a dict of lists: the
    lists become the columns when they have one length, and the
    constructor raises when they have not. *)
Definition same_length (df : Frame) : bool :=
  match df with
  | [] => true
  | (_, cells) :: rest =>
      forallb (fun column => Nat.eqb (List.length (snd column))
                                     (List.length cells)) rest
  end.

Definition pandas_frame (v : PyVal) : PyExn + Frame :=
  match demo_frame v with
  | inr df =>
      if same_length df then inr df
      else inl (Exn "ValueError" "All arrays must be of the same length")
  | inl e => inl e
  end.

Definition strict_collaborators : Collaborators Env := {|
  read_sql := fun statement => log statement (demo_read_sql statement);
  llm_invoke := fun _ w => (inr "table", w);
  sql_generator_invoke := fun _ w => (inr "SELECT 1", w);
  pd_DataFrame := pandas_frame;
  py_repr := fun _ => "<object>";
  exec_script := demo_exec;
  os_makedirs := fun _ w => (inr tt, w);
  os_path_join := fun dir file => dir ++ "/" ++ file;
  time_time := fun _ => 1700000000%N;
  random_choices := fun w => ("k3x9qa", w);
  plt_savefig := fun _ w => (inr tt, w)
|}.

(** A state whose data is a dict of two columns of unequal length, and
    nothing else; the same data with columns of one length. *)
Definition uneven_state : GraphState :=
  set_data (VDict [("region", VList [VStr "north"; VStr "south"]);
                   ("total", VList [VInt 10])])
    (initial_state "list the totals").

Definition even_state : GraphState :=
  set_data (VDict [("region", VList [VStr "north"; VStr "south"]);
                   ("total", VList [VInt 10; VInt 20])])
    (initial_state "list the totals").

End Demo.

(** * Properties *)

(** ** Running computations *)

Module PyFacts.
Import Py.

Lemma bind_ret {Env A B} (m : M Env A) (f : A -> M Env B) w a w' :
  m w = (Ret a, w') -> bind m f w = f a w'.
Proof. intros H. unfold bind. rewrite H. reflexivity. Qed.

Lemma bind_raise {Env A B} (m : M Env A) (f : A -> M Env B) w e w' :
  m w = (Raise e, w') -> bind m f w = (Raise e, w').
Proof. intros H. unfold bind. rewrite H. reflexivity. Qed.

Lemma bind_unwind {Env A B} (m : M Env A) (f : A -> M Env B) w e w' :
  m w = (Unwind e, w') -> bind m f w = (Unwind e, w').
Proof. intros H. unfold bind. rewrite H. reflexivity. Qed.

Lemma call_never_unwinds {Env A}
    (f : World Env -> (PyExn + A) * World Env) w e w' :
  call f w <> (Unwind e, w').
Proof.
  unfold call. destruct (f w) as [[e0 | a] w1]; discriminate.
Qed.

Lemma pure_call_never_unwinds {Env A} (r : PyExn + A) (w : World Env) e w' :
  pure_call r w <> (Unwind e, w').
Proof. unfold pure_call. destruct r; discriminate. Qed.

Lemma dict_set_not_nil key v d : dict_set key v d <> [].
Proof.
  destruct d as [| [k v0] rest]; simpl; [discriminate |].
  destruct (String.eqb k key); discriminate.
Qed.

Lemma dict_set_fresh key v d :
  dict_get key d = None -> dict_set key v d = (d ++ [(key, v)])%list.
Proof.
  induction d as [| [k v0] rest IH]; simpl; [reflexivity |].
  destruct (String.eqb k key); [discriminate |].
  intros H. rewrite (IH H). reflexivity.
Qed.

End PyFacts.

(** ** Intent tagging and result assembly *)

Module AssemblySpec.
Import PyStr Utils Py Agent Vocabulary PyFacts.

(** C7.  Once the model has answered, [tag_question_type] returns
    without raising; its result is "chart" exactly when the answer,
    stripped and lowercased, is "chart", and it is "table" in every
    other case. *)
Theorem tag_question_type_chart_or_table :
  forall (Env : Type) (C : Collaborators Env) (question content : string)
         (w w' : World Env),
    llm_invoke (tag_prompt question) w = (inr content, w') ->
    exists answer,
      tag_question_type question w = (Ret answer, w') /\
      (answer = "chart" <-> lower (strip content) = "chart") /\
      (answer <> "chart" -> answer = "table").
Proof.
  intros Env C question content w w' Hllm.
  unfold tag_question_type.
  erewrite bind_ret by (unfold call; rewrite Hllm; reflexivity).
  cbn [existsb].
  destruct (String.eqb (lower (strip content)) "chart") eqn:Echart.
  - apply String.eqb_eq in Echart. cbn. exists "chart".
    split; [rewrite Echart; reflexivity |].
    split; [tauto | intros Hn; exfalso; apply Hn; reflexivity].
  - apply String.eqb_neq in Echart.
    destruct (String.eqb (lower (strip content)) "table") eqn:Etable.
    + apply String.eqb_eq in Etable. cbn. exists "table".
      split; [rewrite Etable; reflexivity |].
      split; [split; intro; [discriminate | contradiction] | reflexivity].
    + cbn. exists "table". split; [reflexivity |].
      split; [split; intro; [discriminate | contradiction] | reflexivity].
Qed.

Lemma tag_question_type_chart_or_table_witness :
  exists answer,
    @tag_question_type _ (Demo.collaborators ("  CHART" ++ nl) "SELECT 1" "")
       "sales by month" Demo.world0 = (Ret answer, Demo.world0) /\
    (answer = "chart" <-> lower (strip ("  CHART" ++ nl)) = "chart") /\
    (answer <> "chart" -> answer = "table").
Proof.
  apply (tag_question_type_chart_or_table _
           (Demo.collaborators ("  CHART" ++ nl) "SELECT 1" "")
           "sales by month" ("  CHART" ++ nl) Demo.world0 Demo.world0).
  reflexivity.
Defined.

Example tag_question_type_uppercase :
  fst (@tag_question_type _ (Demo.collaborators ("  CHART" ++ nl) "" "")
         "sales by month" Demo.world0) = Ret "chart".
Proof. reflexivity. Qed.

Example tag_question_type_maybe :
  fst (@tag_question_type _ (Demo.collaborators "maybe" "" "")
         "sales by month" Demo.world0) = Ret "table".
Proof. reflexivity. Qed.

Section StatePrinter.
Context {Env : Type} `{C : Collaborators Env}.

Lemma tabular_outputs_slot (d : Dict) :
  let outputs := tabular_outputs d [] in
  outputs <> [] /\
  dict_get "chart" outputs = None /\
  dict_get "message" outputs = None /\
  (dict_has "multi_table_data" outputs || dict_has "dataframe" outputs
   || dict_has "error" outputs = true).
Proof.
  unfold tabular_outputs.
  destruct (truth_value _) as [e | [|]].
  - cbn; repeat split; discriminate.
  - destruct (dict_get "tables" d) as [tables |]; cbn.
    + destruct (py_len tables); cbn; repeat split; discriminate.
    + repeat split; discriminate.
  - destruct (pd_DataFrame (VDict d)); cbn; repeat split; discriminate.
Qed.

Lemma dict_get_set_same key v d : dict_get key (dict_set key v d) = Some v.
Proof.
  induction d as [| [k v0] rest IH]; simpl.
  - rewrite String.eqb_refl. reflexivity.
  - destruct (String.eqb k key) eqn:E; simpl; rewrite E; [reflexivity | exact IH].
Qed.

Lemma dict_get_set_other key key' v d :
  key <> key' -> dict_get key' (dict_set key v d) = dict_get key' d.
Proof.
  intros Hne. induction d as [| [k v0] rest IH]; simpl.
  - destruct (String.eqb_spec key key'); [contradiction | reflexivity].
  - destruct (String.eqb_spec k key) as [-> | Hk]; simpl.
    + destruct (String.eqb_spec key key'); [contradiction | reflexivity].
    + destruct (String.eqb k key'); [reflexivity | exact IH].
Qed.

Lemma dict_has_set_other key key' v d :
  key <> key' -> dict_has key' (dict_set key v d) = dict_has key' d.
Proof.
  intros Hne. unfold dict_has. rewrite dict_get_set_other by exact Hne.
  reflexivity.
Qed.

Lemma truthy_dict (d : Dict) : d <> [] -> truthy (VDict d) = true.
Proof. destruct d; [contradiction | reflexivity]. Qed.

(** What the [try] of [state_printer] leaves in the outputs, case by
    case. *)
Lemma tabular_outputs_frame (d : Dict) (df : Frame) :
  truth_value (multi_table_flag d) = inr false ->
  pd_DataFrame (VDict d) = inr df ->
  tabular_outputs d [] = [("dataframe", VFrame df)].
Proof.
  unfold tabular_outputs, multi_table_flag. intros -> ->. reflexivity.
Qed.

Lemma tabular_outputs_refused (d : Dict) (e : PyExn) :
  truth_value (multi_table_flag d) = inr false ->
  pd_DataFrame (VDict d) = inl e ->
  tabular_outputs d [] = [("error", creating_error e)].
Proof.
  unfold tabular_outputs, multi_table_flag. intros -> ->. reflexivity.
Qed.

Lemma tabular_outputs_tables (d : Dict) (tables : PyVal) (n : nat) :
  truth_value (multi_table_flag d) = inr true ->
  dict_get "tables" d = Some tables ->
  py_len tables = inr n ->
  tabular_outputs d [] = [("multi_table_data", tables)].
Proof.
  unfold tabular_outputs, multi_table_flag. intros -> -> Hlen.
  cbn [dict_set]. rewrite Hlen. reflexivity.
Qed.

(** The final output on a [data] that is a dict: what the [try] left,
    then the chart entry. *)
Lemma state_printer_on_dict (state : GraphState) (d : Dict) :
  data state = Some (VDict d) ->
  final_output (state_printer state)
  = Some (VDict (tabular_outputs d [] ++ chart_slot state)%list).
Proof.
  destruct state as [q sq dat tg cs co fo nx].
  cbn [data]. intros ->.
  unfold state_printer, chart_slot.
  cbn [data chart_output final_output set_final_output].
  destruct (tabular_outputs_slot d) as (Hne & Hchart & _ & _).
  set (outputs := tabular_outputs d []) in *.
  destruct co as [chart |].
  - rewrite truthy_dict by apply dict_set_not_nil. cbn [negb].
    rewrite dict_set_fresh by exact Hchart. reflexivity.
  - rewrite truthy_dict by exact Hne. cbn [negb].
    rewrite app_nil_r. reflexivity.
Qed.

(** The final output on any other [data], or none. *)
Lemma state_printer_without_dict (state : GraphState) :
  (forall d, data state <> Some (VDict d)) ->
  final_output (state_printer state)
  = Some (VDict match chart_output state with
                | Some chart => [("chart", chart)]
                | None => [("message", VStr "No valid output found.")]
                end).
Proof.
  destruct state as [q sq dat tg cs co fo nx].
  cbn [data chart_output]. intros Hnot.
  unfold state_printer. cbn [data chart_output final_output set_final_output].
  destruct dat as [[ | b | z | s | l | d | f] |];
    try (exfalso; apply (Hnot d); reflexivity);
    destruct co as [chart |]; reflexivity.
Qed.

(** C5.  For every state, [state_printer] sets [final_output] to a dict
    that is not empty.  The chart slot is there exactly when the state
    has a chart output, and carries it.  On a [data] that is a dict
    whose multi-table flag is unset: when [pd.DataFrame] accepts the
    dict, the output is the frame under "dataframe", followed by the
    chart slot; when [pd.DataFrame] raises, the output holds no tabular
    data: it is the marker "Error creating DataFrame: ..." under
    "error", followed by the chart slot.  On a [data] that is a dict
    whose flag is set and whose "tables" is a sized value, the output
    is that value under "multi_table_data", followed by the chart slot.
    On any other [data] the output is the chart slot alone or, without
    a chart output, the message "No valid output found." alone; the
    message is there in no other case. *)
Theorem state_printer_output_never_empty :
  forall state : GraphState,
    exists outputs : Dict,
      final_output (state_printer state) = Some (VDict outputs) /\
      outputs <> [] /\
      dict_get "chart" outputs = chart_output state /\
      (forall d df,
         data state = Some (VDict d) ->
         truth_value (multi_table_flag d) = inr false ->
         pd_DataFrame (VDict d) = inr df ->
         outputs = (("dataframe", VFrame df) :: chart_slot state)%list) /\
      (forall d e,
         data state = Some (VDict d) ->
         truth_value (multi_table_flag d) = inr false ->
         pd_DataFrame (VDict d) = inl e ->
         outputs = (("error", creating_error e) :: chart_slot state)%list) /\
      (forall d tables n,
         data state = Some (VDict d) ->
         truth_value (multi_table_flag d) = inr true ->
         dict_get "tables" d = Some tables ->
         py_len tables = inr n ->
         outputs = (("multi_table_data", tables) :: chart_slot state)%list) /\
      (forall d, data state = Some (VDict d) ->
         dict_has "multi_table_data" outputs || dict_has "dataframe" outputs
         || dict_has "error" outputs = true) /\
      ((forall d, data state <> Some (VDict d)) ->
         outputs = match chart_output state with
                   | Some chart => [("chart", chart)]
                   | None => [("message", VStr "No valid output found.")]
                   end) /\
      (dict_has "message" outputs = true <->
         (forall d, data state <> Some (VDict d)) /\ chart_output state = None) /\
      (dict_has "message" outputs = true ->
         outputs = [("message", VStr "No valid output found.")]).
Proof.
  intros state.
  assert (Hcases : (exists d, data state = Some (VDict d)) \/
                   (forall d, data state <> Some (VDict d))).
  { destruct (data state) as [[ | | | | | d | ] |];
      solve [left; eexists; reflexivity | right; intros d0; discriminate]. }
  destruct Hcases as [[d Hd] | Hnot].
  - exists (tabular_outputs d [] ++ chart_slot state)%list.
    destruct (tabular_outputs_slot d) as (Hne & Hchart & Hmsg & Hslot).
    assert (Hget : forall key,
              key <> "chart" ->
              dict_get key (tabular_outputs d [] ++ chart_slot state)%list
              = dict_get key (tabular_outputs d [])).
    { intros key Hkey. unfold chart_slot.
      destruct (chart_output state) as [chart |].
      - rewrite <- (dict_set_fresh "chart" chart) by exact Hchart.
        apply dict_get_set_other. intros Heq. apply Hkey. symmetry. exact Heq.
      - rewrite app_nil_r. reflexivity. }
    assert (Hno : dict_has "message"
                    (tabular_outputs d [] ++ chart_slot state)%list = false).
    { unfold dict_has. rewrite Hget by discriminate. rewrite Hmsg. reflexivity. }
    split; [apply state_printer_on_dict, Hd |].
    split.
    { intros Hnil. apply app_eq_nil in Hnil. apply Hne, Hnil. }
    split.
    { unfold chart_slot. destruct (chart_output state) as [chart |].
      - rewrite <- (dict_set_fresh "chart" chart) by exact Hchart.
        apply dict_get_set_same.
      - rewrite app_nil_r. exact Hchart. }
    split.
    { intros d0 df Hd0 Hflag Hframe. rewrite Hd in Hd0. injection Hd0 as <-.
      rewrite (tabular_outputs_frame d df Hflag Hframe). reflexivity. }
    split.
    { intros d0 e Hd0 Hflag Hframe. rewrite Hd in Hd0. injection Hd0 as <-.
      rewrite (tabular_outputs_refused d e Hflag Hframe). reflexivity. }
    split.
    { intros d0 tables n Hd0 Hflag Htables Hlen.
      rewrite Hd in Hd0. injection Hd0 as <-.
      rewrite (tabular_outputs_tables d tables n Hflag Htables Hlen).
      reflexivity. }
    split.
    { intros _ _. unfold dict_has. rewrite !Hget by discriminate.
      exact Hslot. }
    split.
    { intros H. exfalso. apply (H d). exact Hd. }
    rewrite Hno. split; [split |]; try discriminate.
    intros [H _]. exfalso. apply (H d). exact Hd.
  - eexists. split; [apply state_printer_without_dict, Hnot |].
    destruct (chart_output state) as [chart |] eqn:Hco.
    + split; [discriminate |].
      split; [reflexivity |].
      split; [intros d0 df Hd; exfalso; apply (Hnot d0); exact Hd |].
      split; [intros d0 e Hd; exfalso; apply (Hnot d0); exact Hd |].
      split; [intros d0 tables n Hd; exfalso; apply (Hnot d0); exact Hd |].
      split; [intros d0 Hd; exfalso; apply (Hnot d0); exact Hd |].
      split; [reflexivity |].
      split; [split |]; try discriminate.
      intros [_ H]. discriminate.
    + split; [discriminate |].
      split; [reflexivity |].
      split; [intros d0 df Hd; exfalso; apply (Hnot d0); exact Hd |].
      split; [intros d0 e Hd; exfalso; apply (Hnot d0); exact Hd |].
      split; [intros d0 tables n Hd; exfalso; apply (Hnot d0); exact Hd |].
      split; [intros d0 Hd; exfalso; apply (Hnot d0); exact Hd |].
      split; [reflexivity |].
      split; [split |]; auto.
Qed.

End StatePrinter.

(** C5, as stated: the state holds tabular data, a
    dict of two columns of unequal length, and no chart output.
    [pd.DataFrame] refuses the dict, the [except] clause stores its
    marker, and the final output is that marker alone: neither tabular
    data, nor a chart slot, nor the no-valid-output message. *)
Lemma state_printer_refused_data_only_marker :
  data Demo.uneven_state
  = Some (VDict [("region", VList [VStr "north"; VStr "south"]);
                 ("total", VList [VInt 10])])
  /\ chart_output Demo.uneven_state = None
  /\ final_output (@state_printer _ Demo.strict_collaborators Demo.uneven_state)
     = Some (VDict [("error",
                     VStr "Error creating DataFrame: All arrays must be of the same length")])
  /\ dict_has "dataframe"
       (outputs_of (@state_printer _ Demo.strict_collaborators Demo.uneven_state))
     = false
  /\ dict_has "multi_table_data"
       (outputs_of (@state_printer _ Demo.strict_collaborators Demo.uneven_state))
     = false
  /\ dict_has "chart"
       (outputs_of (@state_printer _ Demo.strict_collaborators Demo.uneven_state))
     = false
  /\ dict_has "message"
       (outputs_of (@state_printer _ Demo.strict_collaborators Demo.uneven_state))
     = false.
Proof. repeat split; reflexivity. Qed.

(** The same columns with one length are assembled as the frame; with a
    chart output next to them, both slots are there. *)
Example state_printer_even_data :
  final_output (@state_printer _ Demo.strict_collaborators Demo.even_state)
  = Some (VDict [("dataframe",
                  VFrame [("region", [VStr "north"; VStr "south"]);
                          ("total", [VInt 10; VInt 20])])])
  /\ final_output (@state_printer _ Demo.strict_collaborators
                     (set_chart_output (VStr "generated_charts/chart.png")
                        Demo.even_state))
     = Some (VDict [("dataframe",
                     VFrame [("region", [VStr "north"; VStr "south"]);
                             ("total", [VInt 10; VInt 20])]);
                    ("chart", VStr "generated_charts/chart.png")]).
Proof. split; reflexivity. Qed.

(** A multi-table result is passed on as it is. *)
Example state_printer_multi_table :
  final_output (@state_printer _ Demo.strict_collaborators
                  (set_data (multi_table_result [VDict [("table_name", VStr "sales")]])
                     Demo.even_state))
  = Some (VDict [("multi_table_data", VList [VDict [("table_name", VStr "sales")]])]).
Proof. reflexivity. Qed.

(** Total failure: neither data nor chart output. *)
Example state_printer_nothing :
  final_output (@state_printer _ Demo.strict_collaborators
                  (initial_state "list the totals"))
  = Some (VDict [("message", VStr "No valid output found.")]).
Proof. reflexivity. Qed.

End AssemblySpec.

(** ** Facts about the string operations *)

Module PyStrFacts.
Import PyStr Vocabulary.

Lemma lstrip_head (s : string) :
  lstrip s = "" \/ exists c t, lstrip s = String c t /\ isspace c = false.
Proof.
  induction s as [| c s IH]; simpl.
  - left. reflexivity.
  - destruct (isspace c) eqn:E; [exact IH |].
    right. exists c, s. split; [reflexivity | exact E].
Qed.

Lemma rstrip_idempotent (s : string) : rstrip (rstrip s) = rstrip s.
Proof.
  induction s as [| c s IH]; simpl; [reflexivity |].
  destruct (isspace c && is_empty (rstrip s)) eqn:E; simpl; [reflexivity |].
  rewrite IH, E. reflexivity.
Qed.

Lemma rstrip_keeps_head (c : ascii) (t : string) :
  isspace c = false -> rstrip (String c t) = String c (rstrip t).
Proof. intros H. simpl. rewrite H. reflexivity. Qed.

Lemma strip_idempotent (s : string) : strip (strip s) = strip s.
Proof.
  unfold strip.
  destruct (lstrip_head s) as [-> | (c & t & -> & Hc)]; [reflexivity |].
  rewrite rstrip_keeps_head by exact Hc.
  simpl lstrip. rewrite Hc.
  rewrite <- rstrip_keeps_head by exact Hc.
  apply rstrip_idempotent.
Qed.

Lemma all_chars_cons p c s :
  all_chars p (String c s) = p c && all_chars p s.
Proof. reflexivity. Qed.

Lemma all_chars_lstrip p s : all_chars p s = true -> all_chars p (lstrip s) = true.
Proof.
  induction s as [| c s IH]; simpl; [auto |].
  intros H. destruct (isspace c); [| exact H].
  rewrite all_chars_cons in H. apply andb_prop in H. apply IH, H.
Qed.

Lemma all_chars_rstrip p s : all_chars p s = true -> all_chars p (rstrip s) = true.
Proof.
  induction s as [| c s IH]; simpl; [auto |].
  rewrite all_chars_cons. intros H. apply andb_prop in H. destruct H as [Hc Hs].
  destruct (isspace c && is_empty (rstrip s)); [reflexivity |].
  rewrite all_chars_cons, Hc. simpl. apply IH, Hs.
Qed.

Lemma all_chars_strip p s : all_chars p s = true -> all_chars p (strip s) = true.
Proof. intros H. unfold strip. apply all_chars_rstrip, all_chars_lstrip, H. Qed.

(** Splitting at one character leaves pieces without that character. *)
Lemma split_go_char_pieces (a : ascii) (s : string) :
  let (h, t) := split_go (String a "") s 0 in
  Forall (fun piece => all_chars (fun c => negb (Ascii.eqb c a)) piece = true)
         (h :: t).
Proof.
  induction s as [| c s IH]; simpl.
  - constructor; [reflexivity | constructor].
  - destruct (split_go (String a "") s 0) as [h t].
    destruct (ascii_dec a c) as [-> | Hne].
    + destruct s; (constructor; [reflexivity | exact IH]).
    + inversion IH as [| x l Hh Ht]; subst.
      constructor; [| exact Ht].
      rewrite all_chars_cons, Hh.
      destruct (Ascii.eqb_spec c a) as [-> | _]; [contradiction | reflexivity].
Qed.

Lemma split_char_pieces (a : ascii) (s : string) :
  Forall (fun piece => all_chars (fun c => negb (Ascii.eqb c a)) piece = true)
         (split (String a "") s).
Proof.
  unfold split. pose proof (split_go_char_pieces a s) as H.
  destruct (split_go (String a "") s 0) as [h t]. exact H.
Qed.

Lemma all_chars_app p a b :
  all_chars p (a ++ b) = all_chars p a && all_chars p b.
Proof.
  induction a as [| c a IH]; [reflexivity |].
  cbn [append]. rewrite !all_chars_cons, IH, andb_assoc. reflexivity.
Qed.

Lemma lower_char_idempotent (c : ascii) : is_lowered (lower_char c) = true.
Proof.
  destruct c as [[] [] [] [] [] [] [] []]; vm_compute; reflexivity.
Qed.

Lemma lower_is_lowered (s : string) : all_chars is_lowered (lower s) = true.
Proof.
  induction s as [| c s IH]; [reflexivity |].
  cbn [lower]. rewrite all_chars_cons, lower_char_idempotent. exact IH.
Qed.

(** The pieces of a split, whatever the separator, are made of
    characters of the text. *)
Lemma split_go_pieces p (sep s : string) :
  forall skip,
    all_chars p s = true ->
    all_chars p (fst (split_go sep s skip)) = true
    /\ Forall (fun piece => all_chars p piece = true)
              (snd (split_go sep s skip)).
Proof.
  induction s as [| c s IH]; intros skip H.
  - split; [reflexivity | constructor].
  - rewrite all_chars_cons in H. apply andb_prop in H. destruct H as [Hc Hs].
    cbn [split_go]. destruct skip as [| skip].
    + destruct (prefix sep (String c s)).
      * destruct (IH (String.length sep - 1) Hs) as [Hh Ht].
        destruct (split_go sep s (String.length sep - 1)) as [h t].
        split; [reflexivity | constructor; assumption].
      * destruct (IH 0 Hs) as [Hh Ht].
        destruct (split_go sep s 0) as [h t]. cbn [fst snd] in *.
        split; [rewrite all_chars_cons, Hc; exact Hh | exact Ht].
    + apply IH, Hs.
Qed.

Lemma split_pieces p (sep s : string) :
  all_chars p s = true ->
  Forall (fun piece => all_chars p piece = true) (split sep s).
Proof.
  intros H. unfold split.
  destruct (split_go_pieces p sep s 0 H) as [Hh Ht].
  destruct (split_go sep s 0) as [h t]. constructor; assumption.
Qed.

Lemma nth_pieces p (pieces : list string) (n : nat) :
  Forall (fun piece => all_chars p piece = true) pieces ->
  all_chars p (nth n pieces "") = true.
Proof.
  intros H. revert n. induction H as [| x l Hx Hl IH]; intros [| n];
    try reflexivity; [exact Hx | apply IH].
Qed.

Lemma replace_go_chars p (old new s : string) :
  all_chars p new = true ->
  forall skip, all_chars p s = true ->
               all_chars p (replace_go old new s skip) = true.
Proof.
  intros Hnew. induction s as [| c s IH]; intros skip H; [reflexivity |].
  rewrite all_chars_cons in H. apply andb_prop in H. destruct H as [Hc Hs].
  cbn [replace_go]. destruct skip as [| skip]; [| apply IH, Hs].
  destruct (prefix old (String c s)).
  - rewrite all_chars_app, Hnew. apply IH, Hs.
  - rewrite all_chars_cons, Hc. apply IH, Hs.
Qed.

End PyStrFacts.

(** ** The text utilities *)

Module UtilsSpec.
Import PyStr PyRe Utils Vocabulary PyStrFacts.

(** *** Statement splitting *)

Lemma drop_comment_lines_filter (lines cleaned : list string) :
  drop_comment_lines lines cleaned = (cleaned ++ filter not_comment lines)%list.
Proof.
  revert cleaned. induction lines as [| line rest IH]; intros cleaned; simpl.
  - rewrite app_nil_r. reflexivity.
  - unfold not_comment at 1.
    destruct (startswith (strip line) "--"); simpl; rewrite IH.
    + reflexivity.
    + rewrite <- app_assoc. reflexivity.
Qed.

Lemma split_sql_statements_pipeline (sql_text : string) :
  split_sql_statements sql_text =
  map strip
      (filter not_blank
              (split ";" (join nl (filter not_comment (split nl sql_text))))).
Proof.
  unfold split_sql_statements.
  destruct sql_text as [| c s]; [reflexivity |].
  cbn [is_empty]. rewrite drop_comment_lines_filter. reflexivity.
Qed.

Lemma split_sql_statements_shape (sql_text stmt : string) :
  In stmt (split_sql_statements sql_text) ->
  stmt <> "" /\ strip stmt = stmt /\
  all_chars (fun c => negb (Ascii.eqb c ";")) stmt = true.
Proof.
  rewrite split_sql_statements_pipeline. intros Hin.
  apply in_map_iff in Hin. destruct Hin as (piece & <- & Hin).
  apply filter_In in Hin. destruct Hin as [Hin Hnb].
  split; [| split].
  - unfold not_blank in Hnb. destruct (strip piece); [discriminate | discriminate].
  - apply strip_idempotent.
  - apply all_chars_strip.
    pose proof (split_char_pieces ";" (join nl (filter not_comment (split nl sql_text)))) as H.
    rewrite Forall_forall in H. apply H, Hin.
Qed.

(** C3, as the code has it.  [split_sql_statements] drops the lines
    whose trimmed form starts with "--", joins the others again, splits
    at ";", trims the pieces and drops the empty ones: every statement
    it returns is non-empty, trimmed and free of ";".  A comment on a
    line of its own is removed; a comment that follows a statement on
    the same line is not a full-line comment and stays, at the head of
    the next statement. *)
Theorem split_sql_statements_full_line_comments :
  (forall sql_text,
     split_sql_statements sql_text =
     map strip
         (filter not_blank
                 (split ";" (join nl (filter not_comment (split nl sql_text))))))
  /\ (forall sql_text stmt,
        In stmt (split_sql_statements sql_text) ->
        stmt <> "" /\ strip stmt = stmt /\
        all_chars (fun c => negb (Ascii.eqb c ";")) stmt = true)
  /\ split_sql_statements ("SELECT 1;" ++ nl ++ "-- comment" ++ nl ++ "SELECT 2;")
     = ["SELECT 1"; "SELECT 2"]
  /\ split_sql_statements ("SELECT 1; -- comment" ++ nl ++ "SELECT 2;")
     = ["SELECT 1"; "-- comment" ++ nl ++ "SELECT 2"].
Proof.
  split; [exact split_sql_statements_pipeline |].
  split; [exact split_sql_statements_shape |].
  split; reflexivity.
Qed.

Lemma split_sql_statements_full_line_comments_witness :
  "SELECT 2" <> "" /\ strip "SELECT 2" = "SELECT 2" /\
  all_chars (fun c => negb (Ascii.eqb c ";")) "SELECT 2" = true.
Proof.
  apply (proj1 (proj2 split_sql_statements_full_line_comments)
               ("SELECT 1;" ++ nl ++ "-- comment" ++ nl ++ "SELECT 2;")
               "SELECT 2").
  simpl. right. left. reflexivity.
Defined.

(** C3, as stated: on the input of the specification the comment is
    not removed, and the result is not the two bare statements. *)
Lemma split_sql_statements_trailing_comment_stays :
  split_sql_statements ("SELECT 1; -- comment" ++ nl ++ "SELECT 2;")
  <> ["SELECT 1"; "SELECT 2"].
Proof. vm_compute. discriminate. Qed.

(** *** SQL extraction *)

(** Whenever the fence marker is found, what comes back is made of
    characters in lower case only. *)
Lemma extract_sql_code_fenced_is_lowered (response : string) :
  contains "```sql"
    (lower (placeholder (strip (replace "SQLQuery:" "" response)))) = true ->
  all_chars is_lowered (extract_sql_code response) = true.
Proof.
  intros Hfence. unfold extract_sql_code. rewrite Hfence.
  unfold placeholder at 1. unfold replace.
  apply replace_go_chars; [reflexivity |].
  apply all_chars_strip, nth_pieces, split_pieces, nth_pieces, split_pieces.
  apply lower_is_lowered.
Qed.

(** C2.  On a response whose fenced block holds
    [SELECT * FROM Orders WHERE name = 'Bob'], [extract_sql_code]
    returns the block in lower case, which is not its content; and
    whenever the fence marker is found, the result has no capital
    letter, whatever the block holds. *)
Theorem extract_sql_code_lowercases_the_block :
  extract_sql_code fenced_answer = "select * from orders where name = 'bob'"
  /\ extract_sql_code fenced_answer
     <> strip (nl ++ "SELECT * FROM Orders WHERE name = 'Bob'" ++ nl)
  /\ forall response,
       contains "```sql"
         (lower (placeholder (strip (replace "SQLQuery:" "" response)))) = true ->
       all_chars is_lowered (extract_sql_code response) = true.
Proof.
  split; [reflexivity |].
  split; [vm_compute; discriminate |].
  exact extract_sql_code_fenced_is_lowered.
Qed.

(** The tiers below the fence return the text in the case it has. *)
Example extract_sql_code_backticks_keep_case :
  extract_sql_code "Run `SELECT Name FROM Orders` please"
  = "SELECT Name FROM Orders".
Proof. reflexivity. Qed.

Example extract_sql_code_line_keeps_case :
  extract_sql_code ("The query is" ++ nl ++ "  SELECT Name FROM Orders")
  = "SELECT Name FROM Orders".
Proof. reflexivity. Qed.

(** *** Chart script extraction *)





End UtilsSpec.

(** ** The table-name scan *)

Module TableNameSpec.
Import PyStr PyRe Utils Vocabulary.


Lemma length_app (a b : string) :
  String.length (a ++ b) = String.length a + String.length b.
Proof. induction a as [| c a IH]; simpl; [reflexivity | rewrite IH; reflexivity]. Qed.

Lemma substring_prefix (a b : string) :
  substring 0 (String.length (a ++ b) - String.length b) (a ++ b) = a.
Proof.
  rewrite length_app.
  replace (String.length a + String.length b - String.length b)
    with (String.length a) by lia.
  induction a as [| c a IH]; simpl.
  - destruct b; reflexivity.
  - rewrite IH. reflexivity.
Qed.

Lemma app_assoc_string (a b c : string) : (a ++ b) ++ c = a ++ (b ++ c).
Proof. induction a as [| x a IH]; simpl; [reflexivity | rewrite IH; reflexivity]. Qed.

Section Engine.
Context {A : Type}.




End Engine.


Lemma search_found (r : pattern) (s name : string) :
  match_here r s = Some name -> search r s = Some name.
Proof. intros H. destruct s; simpl; rewrite H; reflexivity. Qed.

(** [re.search] passes over a prefix in which no match starts. *)
Lemma search_skips (r : pattern) (pre s : string) :
  (forall p q, pre = p ++ q -> q <> "" -> match_here r (q ++ s) = None) ->
  search r (pre ++ s) = search r s.
Proof.
  induction pre as [| c pre IH]; intros H; [reflexivity |].
  assert (H0 : match_here r (String c pre ++ s) = None)
    by (apply (H "" (String c pre)); [reflexivity | discriminate]).
  cbn [append] in H0 |- *. cbn [search]. rewrite H0.
  apply IH. intros p q -> Hq.
  apply (H (String c p) q); [reflexivity | exact Hq].
Qed.








End TableNameSpec.

(** ** The query executor *)

Module ExecutorSpec.
Import PyStr Utils Py Agent Vocabulary PyFacts.

(** *** What the entries of a batch look like *)

Lemma filter_length_by_map {A B} (f : A -> bool) (g : B -> bool)
    (l : list A) (l' : list B) :
  map f l = map g l' ->
  List.length (filter f l) = List.length (filter g l').
Proof.
  revert l'. induction l as [| x l IH]; intros [| y l'] H; try discriminate.
  - reflexivity.
  - simpl in H. injection H as Hxy Hrest. simpl. rewrite Hxy.
    destruct (g y); simpl; rewrite (IH l' Hrest); reflexivity.
Qed.

Lemma filter_length_split {A} (f : A -> bool) (l : list A) :
  List.length (filter f l) + List.length (filter (fun x => negb (f x)) l)
  = List.length l.
Proof.
  induction l as [| x l IH]; simpl; [reflexivity |].
  destruct (f x); simpl; lia.
Qed.

Lemma tables_statements i statements outs entries :
  Tables i statements outs entries ->
  map (entry_field "sql_statement") entries
  = map (fun statement => Some (VStr statement)) statements.
Proof.
  induction 1; simpl; [reflexivity | |]; rewrite IHTables; reflexivity.
Qed.

Lemma tables_fields i statements outs entries :
  Tables i statements outs entries ->
  Forall2 (fun statement entry =>
             entry_field "sql_statement" entry = Some (VStr statement)
             /\ exists name, entry_field "table_name" entry = Some (VStr name))
          statements entries.
Proof.
  induction 1; constructor; try assumption;
    (split; [reflexivity | eexists; reflexivity]).
Qed.

(** *** Frames whose labels are distinct *)

Lemma count_label_app col l1 l2 :
  count_label col (l1 ++ l2) = count_label col l1 + count_label col l2.
Proof.
  induction l1 as [| l rest IH]; simpl; [reflexivity |]. rewrite IH. lia.
Qed.

Lemma count_label_absent col labels :
  count_label col labels = 0 <-> ~ In col labels.
Proof.
  induction labels as [| l rest IH]; simpl; [tauto |].
  destruct (String.eqb_spec l col) as [-> | Hne].
  - split; [discriminate | intros H; exfalso; apply H; left; reflexivity].
  - simpl. rewrite IH. tauto.
Qed.

Lemma count_label_present col labels :
  In col labels -> 1 <= count_label col labels.
Proof.
  intros Hin.
  destruct (count_label col labels) eqn:E; [| lia].
  exfalso. apply (proj1 (count_label_absent col labels) E). exact Hin.
Qed.

(** [distinct_labels] is the absence of a repeated label. *)
Lemma distinct_labels_NoDup (df : Frame) :
  distinct_labels df = true <-> NoDup (map fst df).
Proof.
  unfold distinct_labels. generalize (map fst df) as labels. clear df.
  intros labels. rewrite forallb_forall. split.
  - induction labels as [| l rest IH]; intros Hone; constructor.
    + apply count_label_absent.
      pose proof (Hone l (or_introl eq_refl)) as H1.
      apply Nat.eqb_eq in H1. simpl in H1. rewrite String.eqb_refl in H1. lia.
    + apply IH. intros col Hin. apply Nat.eqb_eq.
      pose proof (Hone col (or_intror Hin)) as H1.
      apply Nat.eqb_eq in H1. simpl in H1.
      pose proof (count_label_present col rest Hin).
      destruct (String.eqb l col); lia.
  - induction 1 as [| l rest Hnot Hnodup IH]; intros col Hin; [destruct Hin |].
    apply Nat.eqb_eq. simpl.
    destruct Hin as [-> | Hin].
    + rewrite String.eqb_refl.
      rewrite (proj2 (count_label_absent col rest) Hnot). reflexivity.
    + destruct (String.eqb_spec l col) as [-> | Hne]; [contradiction |].
      apply Nat.eqb_eq, IH, Hin.
Qed.

Lemma find_label_skips col (pre post : Frame) :
  ~ In col (map fst pre) ->
  find (fun c => String.eqb (fst c) col) (pre ++ post)
  = find (fun c => String.eqb (fst c) col) post.
Proof.
  induction pre as [| [l cells] pre IH]; simpl; [reflexivity |].
  intros Hnot. destruct (String.eqb_spec l col) as [-> | Hne].
  - exfalso. apply Hnot. left. reflexivity.
  - apply IH. intros Hin. apply Hnot. right. exact Hin.
Qed.

Lemma dict_get_columns_absent col (pre : Frame) :
  ~ In col (map fst pre) -> dict_get col (columns_dict pre) = None.
Proof.
  induction pre as [| [l cells] pre IH]; simpl; [reflexivity |].
  intros Hnot. destruct (String.eqb_spec l col) as [-> | Hne].
  - exfalso. apply Hnot. left. reflexivity.
  - apply IH. intros Hin. apply Hnot. right. exact Hin.
Qed.

(** The comprehension, with the columns of [pre] done and those of
    [post] to do. *)
Lemma columns_to_lists_distinct (df : Frame) :
  forall post pre : Frame,
    df = (pre ++ post)%list ->
    (forall col, In col (map fst post) -> count_label col (map fst df) = 1) ->
    columns_to_lists (map fst post) df (columns_dict pre)
    = inr (columns_dict df).
Proof.
  induction post as [| [col cells] post IH]; intros pre Hdf Hone.
  - simpl. rewrite Hdf, app_nil_r. reflexivity.
  - cbn [map fst columns_to_lists].
    pose proof (Hone col (or_introl eq_refl)) as H1.
    rewrite H1. cbn [Nat.eqb].
    assert (Hpre : ~ In col (map fst pre)).
    { apply count_label_absent.
      rewrite Hdf, map_app, count_label_app in H1.
      simpl in H1. rewrite String.eqb_refl in H1. lia. }
    assert (Hfind : find (fun c => String.eqb (fst c) col) df
                    = Some (col, cells)).
    { rewrite Hdf, find_label_skips by exact Hpre.
      simpl. rewrite String.eqb_refl. reflexivity. }
    rewrite Hfind.
    rewrite dict_set_fresh by (apply dict_get_columns_absent, Hpre).
    replace (columns_dict pre ++ [(col, VList cells)])%list
      with (columns_dict (pre ++ [(col, cells)])%list)
      by (unfold columns_dict; rewrite map_app; reflexivity).
    apply IH.
    + rewrite Hdf, <- app_assoc. reflexivity.
    + intros c Hc. apply Hone. right. exact Hc.
Qed.

(** On a frame with distinct labels the comprehension yields its
    columns, in order. *)
Lemma frame_to_dict_distinct (df : Frame) :
  distinct_labels df = true -> frame_to_dict df = inr (columns_dict df).
Proof.
  intros Hd. unfold frame_to_dict.
  apply (columns_to_lists_distinct df df []); [reflexivity |].
  intros col Hin. apply Nat.eqb_eq.
  unfold distinct_labels in Hd. rewrite forallb_forall in Hd.
  apply Hd, Hin.
Qed.

(** On a frame with a repeated label it raises. *)
Lemma frame_to_dict_repeated (df : Frame) :
  distinct_labels df = false ->
  frame_to_dict df
  = inl (Exn "AttributeError" "'DataFrame' object has no attribute 'tolist'").
Proof.
  unfold frame_to_dict, distinct_labels.
  change (@nil (string * PyVal)) with (columns_dict []).
  generalize (@nil (string * list PyVal)) as pre.
  assert (Hgen : forall labels acc,
            (forall col, In col labels -> In col (map fst df)) ->
            forallb (fun col => Nat.eqb (count_label col (map fst df)) 1)
                    labels = false ->
            columns_to_lists labels df acc
            = inl (Exn "AttributeError"
                       "'DataFrame' object has no attribute 'tolist'")).
  { induction labels as [| col rest IH]; intros acc Hsub Hd; [discriminate |].
    cbn [columns_to_lists forallb] in *.
    destruct (Nat.eqb (count_label col (map fst df)) 1); [| reflexivity].
    cbn [andb] in Hd.
    destruct (find (fun c => String.eqb (fst c) col) df) as [[l cells] |] eqn:Hf.
    - apply IH; [| exact Hd]. intros c Hc. apply Hsub. right. exact Hc.
    - exfalso.
      assert (Hin : In col (map fst df)) by (apply Hsub; left; reflexivity).
      apply in_map_iff in Hin as ([l cells] & Hl & Hin). simpl in Hl. subst l.
      pose proof (find_none _ _ Hf _ Hin) as Hno. simpl in Hno.
      rewrite String.eqb_refl in Hno. discriminate. }
  intros pre Hd. apply Hgen; [tauto | exact Hd].
Qed.

(** *** The entries of a batch, from the answers of the database *)

Lemma batch_entries_length i statements (answers : list (PyExn + Frame)) :
  List.length answers = List.length statements ->
  List.length (batch_entries i statements answers) = List.length statements.
Proof.
  revert i answers.
  induction statements as [| statement rest IH]; intros i [| r answers] H;
    try discriminate; simpl; [reflexivity |].
  rewrite IH; [reflexivity |]. simpl in H. lia.
Qed.

Lemma batch_entries_errors i statements (answers : list (PyExn + Frame)) :
  List.length answers = List.length statements ->
  map has_error (batch_entries i statements answers) = map refused answers.
Proof.
  revert i answers.
  induction statements as [| statement rest IH]; intros i [| r answers] H;
    try discriminate; simpl; [reflexivity |].
  rewrite IH by (simpl in H; lia). destruct r; reflexivity.
Qed.

Lemma batch_entries_columns i statements (answers : list (PyExn + Frame)) :
  List.length answers = List.length statements ->
  map has_columns (batch_entries i statements answers)
  = map (fun r => negb (refused r)) answers.
Proof.
  revert i answers.
  induction statements as [| statement rest IH]; intros i [| r answers] H;
    try discriminate; simpl; [reflexivity |].
  rewrite IH by (simpl in H; lia). destruct r; reflexivity.
Qed.

Lemma batch_entries_nth statements :
  forall i (answers : list (PyExn + Frame)) n statement r,
    nth_error statements n = Some statement ->
    nth_error answers n = Some r ->
    nth_error (batch_entries i statements answers) n
    = Some (batch_entry (i + n) statement r).
Proof.
  induction statements as [| statement0 rest IH];
    intros i [| r0 answers] [| n] statement r Hs Hr; try discriminate.
  - simpl in *. injection Hs as ->. injection Hr as ->.
    rewrite Nat.add_0_r. reflexivity.
  - simpl in *. replace (i + S n) with (S i + n) by lia.
    apply IH; assumption.
Qed.

Section Executor.
Context {Env : Type} `{C : Collaborators Env}.

(** A statement's run returns the three-key dict or raises. *)
Lemma run_statement_cases (statement : string) (w : World Env) :
  (exists columns w',
     run_statement statement w
     = (Ret (VDict [("table_name",
                     VStr (extract_table_name_from_sql statement));
                    ("dataframe", VDict columns);
                    ("sql_statement", VStr statement)]), w'))
  \/ (exists e w', run_statement statement w = (Raise e, w')).
Proof.
  unfold run_statement, bind, call, pure_call, ret.
  destruct (read_sql statement w) as [[e | df] w1].
  - right. exists e, w1. reflexivity.
  - destruct (frame_to_dict df) as [e | columns].
    + right. exists e, w1. reflexivity.
    + left. exists columns, w1. reflexivity.
Qed.

(** The loop never stops early: it appends one entry per statement. *)
Lemma execute_statements_tables (statements : list string) :
  forall (i : nat) (acc : list PyVal) (w : World Env),
    exists entries w',
      execute_statements i statements acc w = (Ret (acc ++ entries)%list, w')
      /\ Tables i statements (outcomes statements w) entries.
Proof.
  induction statements as [| statement rest IH]; intros i acc w.
  - exists [], w. split; [| constructor].
    simpl. rewrite app_nil_r. reflexivity.
  - cbn [execute_statements outcomes].
    destruct (run_statement_cases statement w)
      as [(columns & w1 & Hrun) | (e & w1 & Hrun)].
    + destruct (IH (S i) (acc ++ [VDict [("table_name",
                     VStr (extract_table_name_from_sql statement));
                    ("dataframe", VDict columns);
                    ("sql_statement", VStr statement)]])%list w1)
        as (entries & w' & Hrest & Htab).
      eexists (_ :: entries), w'.
      rewrite Hrun. split.
      * unfold bind, try_except. rewrite Hrun.
        rewrite Hrest, <- app_assoc. reflexivity.
      * apply Tables_ok. exact Htab.
    + destruct (IH (S i) (acc ++ [statement_error i statement e])%list w1)
        as (entries & w' & Hrest & Htab).
      exists (statement_error i statement e :: entries), w'.
      rewrite Hrun. split.
      * unfold bind, try_except. rewrite Hrun. unfold ret.
        rewrite Hrest, <- app_assoc. reflexivity.
      * apply Tables_failed. exact Htab.
Qed.

Lemma convert_dataframe_multi (state : GraphState) (w : World Env) (q : string) :
  sql_query state = Some q ->
  is_multi_statement_sql q = true ->
  exists tables w',
    convert_dataframe state w
    = (Ret (set_data (multi_table_result tables) state), w')
    /\ Tables 0 (split_sql_statements q)
              (outcomes (split_sql_statements q) w) tables.
Proof.
  intros Hq Hmulti. unfold convert_dataframe.
  rewrite Hq. unfold bind at 1. cbn [item ret]. rewrite Hmulti.
  destruct (execute_statements_tables (split_sql_statements q) 0 [] w)
    as (tables & w' & Hrun & Htab).
  exists tables, w'. split; [| exact Htab].
  unfold bind. rewrite Hrun. reflexivity.
Qed.

(** A statement's run, from the answer of the database. *)
Lemma run_statement_refused (statement : string) (w w1 : World Env)
    (e : PyExn) :
  read_sql statement w = (inl e, w1) ->
  run_statement statement w = (Raise e, w1).
Proof.
  intros Hread. unfold run_statement, bind, call. rewrite Hread. reflexivity.
Qed.

Lemma run_statement_answered (i : nat) (statement : string)
    (w w1 : World Env) (df : Frame) :
  read_sql statement w = (inr df, w1) ->
  distinct_labels df = true ->
  run_statement statement w = (Ret (batch_entry i statement (inr df)), w1).
Proof.
  intros Hread Hd. unfold run_statement, bind, call, pure_call, ret.
  rewrite Hread, (frame_to_dict_distinct df Hd). reflexivity.
Qed.

Lemma run_statement_repeated (statement : string) (w w1 : World Env)
    (df : Frame) :
  read_sql statement w = (inr df, w1) ->
  distinct_labels df = false ->
  run_statement statement w
  = (Raise (Exn "AttributeError"
                "'DataFrame' object has no attribute 'tolist'"), w1).
Proof.
  intros Hread Hd. unfold run_statement, bind, call, pure_call, ret.
  rewrite Hread, (frame_to_dict_repeated df Hd). reflexivity.
Qed.

Lemma executions_length (statements : list string) (w : World Env) :
  List.length (fst (executions statements w)) = List.length statements.
Proof.
  revert w. induction statements as [| statement rest IH]; intros w;
    [reflexivity |].
  cbn [executions]. destruct (read_sql statement w) as [r w1].
  specialize (IH w1). destruct (executions rest w1) as [answers w'].
  simpl in *. rewrite IH. reflexivity.
Qed.

(** The loop, when no answered frame repeats a label: every statement
    reaches the database and gets its entry. *)
Lemma execute_statements_entries (statements : list string) :
  forall (i : nat) (acc : list PyVal) (w : World Env),
    forallb answered_distinct (fst (executions statements w)) = true ->
    execute_statements i statements acc w
    = (Ret (acc ++ batch_entries i statements
                     (fst (executions statements w)))%list,
       snd (executions statements w)).
Proof.
  induction statements as [| statement rest IH]; intros i acc w Hd.
  - simpl. rewrite app_nil_r. reflexivity.
  - cbn [execute_statements executions] in *.
    destruct (read_sql statement w) as [r w1] eqn:Hread.
    specialize (IH (S i) (acc ++ [batch_entry i statement r])%list w1).
    destruct (executions rest w1) as [answers w'] eqn:Hrest.
    cbn [fst snd forallb batch_entries] in *.
    apply andb_prop in Hd as [Hr Hd].
    unfold bind, try_except.
    destruct r as [e | df].
    + rewrite (run_statement_refused _ _ _ _ Hread). unfold ret.
      change (statement_error i statement e)
        with (batch_entry i statement (inl e)).
      rewrite IH by exact Hd. rewrite <- app_assoc. reflexivity.
    + rewrite (run_statement_answered i _ _ _ _ Hread Hr).
      rewrite IH by exact Hd. rewrite <- app_assoc. reflexivity.
Qed.

(** X16.  On a query that splits into more than one statement, none of
    whose answered frames repeats a column label, [convert_dataframe]
    sends every statement to the database, in order, whatever the
    earlier ones did, and returns a multi-table result with one entry
    per statement, in the order of the statements.  When the database
    raised [e] on statement number n (counted from 0), entry n is
    "Error in Statement n+1" with [str(e)] under "error" and the text
    of the statement; when it answered a frame, entry n holds the name
    found in the statement, the columns of the frame as lists, and the
    text of the statement.  So of N entries exactly K carry an error,
    K the number of statements the database refused, and N-K carry
    column data. *)
Theorem convert_dataframe_batch_entries :
  forall (state : GraphState) (w : World Env) (q : string),
    sql_query state = Some q ->
    is_multi_statement_sql q = true ->
    forallb answered_distinct
            (fst (executions (split_sql_statements q) w)) = true ->
    exists tables,
      convert_dataframe state w
      = (Ret (set_data (multi_table_result tables) state),
         snd (executions (split_sql_statements q) w))
      /\ tables
         = batch_entries 0 (split_sql_statements q)
             (fst (executions (split_sql_statements q) w))
      /\ List.length tables = List.length (split_sql_statements q)
      /\ List.length (filter has_error tables)
         = List.length
             (filter refused (fst (executions (split_sql_statements q) w)))
      /\ List.length (filter has_columns tables)
         = List.length (split_sql_statements q)
           - List.length
               (filter refused (fst (executions (split_sql_statements q) w)))
      /\ (forall n statement e,
            nth_error (split_sql_statements q) n = Some statement ->
            nth_error (fst (executions (split_sql_statements q) w)) n
            = Some (inl e) ->
            nth_error tables n
            = Some (VDict [("table_name",
                            VStr ("Error in Statement " ++ str_of_nat (n + 1)));
                           ("error", VStr (exn_str e));
                           ("sql_statement", VStr statement)]))
      /\ (forall n statement df,
            nth_error (split_sql_statements q) n = Some statement ->
            nth_error (fst (executions (split_sql_statements q) w)) n
            = Some (inr df) ->
            nth_error tables n
            = Some (VDict [("table_name",
                            VStr (extract_table_name_from_sql statement));
                           ("dataframe", VDict (columns_dict df));
                           ("sql_statement", VStr statement)])).
Proof.
  intros state w q Hq Hmulti Hdistinct.
  set (statements := split_sql_statements q) in *.
  set (answers := fst (executions statements w)) in *.
  assert (Hlen : List.length answers = List.length statements)
    by apply executions_length.
  exists (batch_entries 0 statements answers).
  split.
  { unfold convert_dataframe. rewrite Hq. unfold bind at 1. cbn [item ret].
    rewrite Hmulti. fold statements. unfold bind.
    rewrite (execute_statements_entries statements 0 [] w Hdistinct).
    reflexivity. }
  split; [reflexivity |].
  split; [apply batch_entries_length, Hlen |].
  split; [apply filter_length_by_map, batch_entries_errors, Hlen |].
  split.
  { rewrite (filter_length_by_map _ _ _ _
               (batch_entries_columns 0 statements answers Hlen)).
    pose proof (filter_length_split refused answers) as Hsplit.
    rewrite Hlen in Hsplit. lia. }
  split.
  - intros n statement e Hs Hr.
    rewrite (batch_entries_nth statements 0 answers n statement (inl e) Hs Hr).
    reflexivity.
  - intros n statement df Hs Hr.
    rewrite (batch_entries_nth statements 0 answers n statement (inr df) Hs Hr).
    reflexivity.
Qed.

(** C10.  On a query that splits into more than one statement, every
    entry of the result, failed or not, has a ["sql_statement"] field
    holding the text of the statement that was run for it, and a
    ["table_name"] label. *)
Theorem convert_dataframe_entries_keep_statement :
  forall (state : GraphState) (w : World Env) (q : string),
    sql_query state = Some q ->
    is_multi_statement_sql q = true ->
    exists tables w',
      convert_dataframe state w
      = (Ret (set_data (multi_table_result tables) state), w')
      /\ Tables 0 (split_sql_statements q)
                (outcomes (split_sql_statements q) w) tables
      /\ Forall2 (fun statement entry =>
                    entry_field "sql_statement" entry = Some (VStr statement)
                    /\ exists name,
                         entry_field "table_name" entry = Some (VStr name))
                 (split_sql_statements q) tables.
Proof.
  intros state w q Hq Hmulti.
  destruct (convert_dataframe_multi state w q Hq Hmulti)
    as (tables & w' & Hrun & Htab).
  exists tables, w'.
  split; [exact Hrun |].
  split; [exact Htab |].
  exact (tables_fields _ _ _ _ Htab).
Qed.

End Executor.

Lemma convert_dataframe_batch_entries_witness :
  @convert_dataframe _ (Demo.collaborators "table" Demo.batch_query "")
     Demo.batch_state Demo.world0
  = (Ret (set_data
            (multi_table_result
               [VDict [("table_name", VStr "Unknown Table");
                       ("dataframe", VDict [("1", VList [VInt 1])]);
                       ("sql_statement", VStr "SELECT 1")];
                VDict [("table_name", VStr "Error in Statement 2");
                       ("error", VStr "Execution failed on sql: SELEC 2");
                       ("sql_statement", VStr "SELEC 2")];
                VDict [("table_name", VStr "Unknown Table");
                       ("dataframe", VDict [("2", VList [VInt 2])]);
                       ("sql_statement", VStr "SELECT 2")]])
            Demo.batch_state),
     MkWorld 2 ["SELECT 1"; "SELEC 2"; "SELECT 2"]).
Proof.
  destruct (@convert_dataframe_batch_entries _
              (Demo.collaborators "table" Demo.batch_query "")
              Demo.batch_state Demo.world0 Demo.batch_query
              eq_refl eq_refl eq_refl)
    as (tables & Hrun & Htables & _).
  rewrite Htables in Hrun. exact Hrun.
Defined.

(** C1.  The batch "SELECT 1; SELECT total, total FROM sales" splits
    into two statements and the database answers both: no statement
    raises an execution error.  Yet the second entry of the result is
    an error entry, "Error in Statement 2", holding the text of the
    exception the column conversion raised on the repeated label, and
    it carries no column data: one error entry where no statement
    failed. *)
Theorem convert_dataframe_repeated_label_reported_failed :
  is_multi_statement_sql Demo.repeated_query = true
  /\ split_sql_statements Demo.repeated_query
     = ["SELECT 1"; "SELECT total, total FROM sales"]
  /\ fst (@executions _ (Demo.collaborators "table" Demo.repeated_query "")
            (split_sql_statements Demo.repeated_query) Demo.world0)
     = [inr [("1", [VInt 1])];
        inr [("total", [VInt 10; VInt 20]); ("total", [VInt 10; VInt 20])]]
  /\ @convert_dataframe _ (Demo.collaborators "table" Demo.repeated_query "")
       Demo.repeated_state Demo.world0
     = (Ret (set_data
               (multi_table_result
                  [VDict [("table_name", VStr "Unknown Table");
                          ("dataframe", VDict [("1", VList [VInt 1])]);
                          ("sql_statement", VStr "SELECT 1")];
                   VDict [("table_name", VStr "Error in Statement 2");
                          ("error",
                           VStr "'DataFrame' object has no attribute 'tolist'");
                          ("sql_statement",
                           VStr "SELECT total, total FROM sales")]])
               Demo.repeated_state),
        MkWorld 2 ["SELECT 1"; "SELECT total, total FROM sales"]).
Proof. repeat split; reflexivity. Qed.

Lemma convert_dataframe_entries_keep_statement_witness :
  exists tables w',
    @convert_dataframe _ (Demo.collaborators "table" Demo.batch_query "")
       Demo.batch_state Demo.world0
    = (Ret (set_data (multi_table_result tables) Demo.batch_state), w')
    /\ map (entry_field "sql_statement") tables
       = [Some (VStr "SELECT 1"); Some (VStr "SELEC 2"); Some (VStr "SELECT 2")].
Proof.
  destruct (@convert_dataframe_entries_keep_statement _
              (Demo.collaborators "table" Demo.batch_query "")
              Demo.batch_state Demo.world0 Demo.batch_query
              eq_refl eq_refl)
    as (tables & w' & Hrun & Htab & _).
  exists tables, w'.
  split; [exact Hrun |].
  exact (tables_statements _ _ _ _ Htab).
Defined.

(** The statements reach the database in the order of the entries, the
    failed one included. *)
Example convert_dataframe_runs_every_statement :
  env (snd (@convert_dataframe _ (Demo.collaborators "table" Demo.batch_query "")
              Demo.batch_state Demo.world0))
  = ["SELECT 1"; "SELEC 2"; "SELECT 2"].
Proof. reflexivity. Qed.

End ExecutorSpec.

(** ** The chart executor *)

Module ChartSpec.
Import PyStr Utils Py Agent Vocabulary PyFacts.

Section Chart.
Context {Env : Type} `{C : Collaborators Env}.

(** Once the script is accepted and the frame built, the call is the
    [try] body run on a cleared surface, followed by the handler and
    the [finally] clause. *)
Lemma execute_chart_code_unfolded (state : GraphState) (w : World Env)
    (df : Frame) :
  is_empty (script_of state) || startswith (script_of state) "Error" = false ->
  pd_DataFrame (frame_source state) = inr df ->
  execute_chart_code state w
  = match render_chart (script_of state) df state (plt_close_all w) with
    | (Ret state', w1) => (Ret state', plt_close_all w1)
    | (Raise e, w1) =>
        (Ret (set_chart_output (chart_error e) state), plt_close_all w1)
    | (Unwind e, w1) => (Unwind e, plt_close_all w1)
    end.
Proof.
  intros Hscript Hframe.
  unfold execute_chart_code. fold (script_of state). fold (frame_source state).
  rewrite Hscript, Hframe.
  unfold bind, pure_call, effect, try_finally, try_except, ret.
  destruct (render_chart (script_of state) df state (plt_close_all w))
    as [[state' | e | e] w1]; reflexivity.
Qed.

Lemma render_chart_script_raises (script : string) (df : Frame)
    (state : GraphState) (w : World Env) (e : PyExn) (w1 : World Env) :
  exec_script script df (plt_figure w) = (Raise e, w1) ->
  render_chart script df state w = (Raise e, w1).
Proof.
  intros Hexec. unfold render_chart, bind, effect. rewrite Hexec. reflexivity.
Qed.

Lemma render_chart_script_unwinds (script : string) (df : Frame)
    (state : GraphState) (w : World Env) (e : PyExn) (w1 : World Env) :
  exec_script script df (plt_figure w) = (Unwind e, w1) ->
  render_chart script df state w = (Unwind e, w1).
Proof.
  intros Hexec. unfold render_chart, bind, effect. rewrite Hexec. reflexivity.
Qed.

(** C4.  When the script is run ([execute_chart_code] has accepted it
    and built the frame) and running it raises an instance of
    [Exception], nothing is raised to the caller: the state comes back
    with [chart_output] set to "Error executing chart code: ..." and no
    figure is left open; the same holds for an exception of any later
    step of the [try].  When running the script raises an exception
    outside [Exception] ([SystemExit], [KeyboardInterrupt]), that
    exception leaves the call, and no state is returned; the figures
    are closed all the same.  So the call returns a state or lets such
    an exception through, and never raises an instance of [Exception].
    However it ends, it leaves no figure open, and it does not depend
    on the figures an earlier call may have left. *)
Theorem execute_chart_code_contains_failure :
  forall (state : GraphState) (w : World Env) (df : Frame),
    is_empty (script_of state) || startswith (script_of state) "Error" = false ->
    pd_DataFrame (frame_source state) = inr df ->
    (forall e w1,
       exec_script (script_of state) df (plt_figure (plt_close_all w))
       = (Raise e, w1) ->
       execute_chart_code state w
       = (Ret (set_chart_output (chart_error e) state), plt_close_all w1))
    /\ (forall e w1,
          render_chart (script_of state) df state (plt_close_all w)
          = (Raise e, w1) ->
          execute_chart_code state w
          = (Ret (set_chart_output (chart_error e) state), plt_close_all w1))
    /\ (forall e w1,
          exec_script (script_of state) df (plt_figure (plt_close_all w))
          = (Unwind e, w1) ->
          execute_chart_code state w = (Unwind e, plt_close_all w1))
    /\ (forall e w1,
          execute_chart_code state w = (Unwind e, w1) ->
          exists w2,
            render_chart (script_of state) df state (plt_close_all w)
            = (Unwind e, w2)
            /\ w1 = plt_close_all w2)
    /\ (forall e w', execute_chart_code state w <> (Raise e, w'))
    /\ open_figures (snd (execute_chart_code state w)) = 0
    /\ execute_chart_code state (plt_close_all w) = execute_chart_code state w.
Proof.
  intros state w df Hscript Hframe.
  assert (Hhandler : forall e w1,
            render_chart (script_of state) df state (plt_close_all w)
            = (Raise e, w1) ->
            execute_chart_code state w
            = (Ret (set_chart_output (chart_error e) state), plt_close_all w1)).
  { intros e w1 Hrender.
    rewrite (execute_chart_code_unfolded state w df Hscript Hframe), Hrender.
    reflexivity. }
  split.
  { intros e w1 Hexec. apply Hhandler.
    apply render_chart_script_raises, Hexec. }
  split; [exact Hhandler |].
  split.
  { intros e w1 Hexec.
    rewrite (execute_chart_code_unfolded state w df Hscript Hframe).
    rewrite (render_chart_script_unwinds _ _ _ _ _ _ Hexec). reflexivity. }
  rewrite (execute_chart_code_unfolded state w df Hscript Hframe).
  split; [| split; [| split]].
  - intros e w1.
    destruct (render_chart (script_of state) df state (plt_close_all w))
      as [[state' | e0 | e0] w2]; try discriminate.
    intros Heq. injection Heq as -> <-. exists w2. split; reflexivity.
  - intros e w'.
    destruct (render_chart (script_of state) df state (plt_close_all w))
      as [[state' | e0 | e0] w1]; discriminate.
  - destruct (render_chart (script_of state) df state (plt_close_all w))
      as [[state' | e0 | e0] w1]; reflexivity.
  - rewrite (execute_chart_code_unfolded state (plt_close_all w) df
               Hscript Hframe).
    reflexivity.
Qed.

(** A script that is empty or starts with "Error" is not run, and the
    figures are left as they were. *)
Lemma execute_chart_code_rejects (state : GraphState) (w : World Env) :
  is_empty (script_of state) || startswith (script_of state) "Error" = true ->
  execute_chart_code state w
  = (Ret (set_chart_output (VStr "Error: No chart script available") state), w).
Proof.
  intros Hscript. unfold execute_chart_code. fold (script_of state).
  rewrite Hscript. reflexivity.
Qed.

End Chart.

Lemma execute_chart_code_contains_failure_witness :
  @execute_chart_code _ (Demo.collaborators "chart" "SELECT 1" "")
     Demo.chart_state Demo.world0
  = (Ret (set_chart_output (VStr "Error executing chart code: bad chart")
                           Demo.chart_state),
     MkWorld 0 []).
Proof.
  apply (proj1 (@execute_chart_code_contains_failure _
                  (Demo.collaborators "chart" "SELECT 1" "")
                  Demo.chart_state Demo.world0
                  [("total", [VInt 10; VInt 20])]
                  eq_refl eq_refl)
               (Exn "ValueError" "bad chart") (MkWorld 2 [])).
  reflexivity.
Defined.

(** C4, as stated: the script
    "import sys; sys.exit(1)" is accepted and run; running it raises
    [SystemExit], which [except Exception] does not catch: the call
    ends with that exception and returns no state, so no [chart_output]
    is set.  The figures are closed. *)
Lemma execute_chart_code_exit_not_contained :
  is_empty (script_of Demo.exit_state)
  || startswith (script_of Demo.exit_state) "Error" = false
  /\ @pd_DataFrame _ (Demo.collaborators "chart" "SELECT 1" "")
       (frame_source Demo.exit_state)
     = inr [("total", [VInt 10; VInt 20])]
  /\ @exec_script _ (Demo.collaborators "chart" "SELECT 1" "")
       (script_of Demo.exit_state) [("total", [VInt 10; VInt 20])]
       (plt_figure (plt_close_all Demo.world0))
     = (Unwind (Exn "SystemExit" "1"), MkWorld 2 [])
  /\ @execute_chart_code _ (Demo.collaborators "chart" "SELECT 1" "")
       Demo.exit_state Demo.world0
     = (Unwind (Exn "SystemExit" "1"), MkWorld 0 [])
  /\ ~ (exists state' w',
          @execute_chart_code _ (Demo.collaborators "chart" "SELECT 1" "")
            Demo.exit_state Demo.world0
          = (Ret state', w')).
Proof.
  repeat split; try reflexivity.
  intros (state' & w' & H). vm_compute in H. discriminate.
Qed.

(** A second chart after a failed one starts from a cleared surface and
    is saved. *)
Example execute_chart_code_after_failure :
  let C := Demo.collaborators "chart" "SELECT 1" "" in
  let after_failure := snd (@execute_chart_code _ C Demo.chart_state Demo.world0) in
  open_figures after_failure = 0
  /\ fst (@execute_chart_code _ C
            (set_chart_script "plt.bar(df.total)" Demo.chart_state)
            after_failure)
     = Ret (set_chart_output
              (VStr "generated_charts/chart_1700000000_k3x9qa.png")
              (set_chart_script "plt.bar(df.total)" Demo.chart_state)).
Proof. split; reflexivity. Qed.

End ChartSpec.

(** ** The graph *)

Module PipelineSpec.
Import PyStr Utils Py Agent Vocabulary PyFacts.

Section Graph.
Context {Env : Type} `{C : Collaborators Env}.

(** *** What each node changes *)

Lemma tag_question_type_ret (question : string) (w : World Env) t w' :
  tag_question_type question w = (Ret t, w') -> t = "chart" \/ t = "table".
Proof.
  unfold tag_question_type, bind, call, ret.
  destruct (llm_invoke (tag_prompt question) w) as [[e | content] w1];
    [discriminate |].
  cbn [existsb].
  destruct (String.eqb (lower (strip content)) "chart") eqn:Echart.
  - apply String.eqb_eq in Echart. cbn. intros H. injection H as <- _.
    left. exact Echart.
  - destruct (String.eqb (lower (strip content)) "table") eqn:Etable.
    + apply String.eqb_eq in Etable. cbn. intros H. injection H as <- _.
      right. exact Etable.
    + cbn. intros H. injection H as <- _. right. reflexivity.
Qed.

Lemma process_question_ret (state : GraphState) (w : World Env) state' w' :
  process_question state w = (Ret state', w') ->
  exists t, state' = set_tag t state /\ (t = "chart" \/ t = "table").
Proof.
  unfold process_question, bind at 1.
  destruct (question state) as [q |]; cbn [item ret raise]; [| discriminate].
  unfold bind.
  destruct (tag_question_type q w) as [[t | e | e] w1] eqn:Htag;
    try discriminate.
  unfold ret. intros H. injection H as <- _.
  exists t. split; [reflexivity | exact (tag_question_type_ret _ _ _ _ Htag)].
Qed.

Lemma generate_sql_ret (state : GraphState) (w : World Env) state' w' :
  generate_sql state w = (Ret state', w') ->
  exists q, state' = set_sql_query q state.
Proof.
  unfold generate_sql, bind at 1.
  destruct (question state) as [q |]; cbn [item ret raise]; [| discriminate].
  unfold bind, call, ret.
  destruct (sql_generator_invoke q w) as [[e | raw] w1]; [discriminate |].
  intros H. injection H as <- _. eexists. reflexivity.
Qed.

Lemma execute_statements_ret (statements : list string) :
  forall i acc (w : World Env),
    exists entries w',
      execute_statements i statements acc w = (Ret (acc ++ entries)%list, w').
Proof.
  intros i acc w.
  destruct (ExecutorSpec.execute_statements_tables statements i acc w)
    as (entries & w' & H & _).
  exists entries, w'. exact H.
Qed.

Lemma convert_dataframe_ret (state : GraphState) (w : World Env) state' w' :
  convert_dataframe state w = (Ret state', w') ->
  exists d, state' = set_data (VDict d) state.
Proof.
  unfold convert_dataframe, bind at 1.
  destruct (sql_query state) as [q |]; cbn [item ret raise]; [| discriminate].
  destruct (is_multi_statement_sql q).
  - destruct (execute_statements_ret (split_sql_statements q) 0 [] w)
      as (entries & w1 & Hrun).
    unfold bind. rewrite Hrun. unfold ret.
    intros H. injection H as <- _. eexists. reflexivity.
  - unfold bind, call, pure_call, ret.
    destruct (read_sql q w) as [[e | df] w1]; [discriminate |].
    destruct (frame_to_dict df) as [e | columns]; [discriminate |].
    intros H. injection H as <- _. eexists. reflexivity.
Qed.

Lemma generate_chart_instructions_ret (state : GraphState) (w : World Env)
    state' w' :
  generate_chart_instructions state w = (Ret state', w') ->
  exists script, state' = set_chart_script script state.
Proof.
  unfold generate_chart_instructions, bind at 1.
  destruct (question state) as [q |]; cbn [item ret raise]; [| discriminate].
  destruct (data state) as [[ | b | z | s | l | d | f] |];
    try (unfold ret; intros H; injection H as <- _; eexists; reflexivity);
    unfold bind, pure_call, call, ret; cbn [data_keys]; try discriminate.
  destruct (llm_invoke _ w) as [[e | response] w1]; [discriminate |].
  intros H. injection H as <- _. eexists. reflexivity.
Qed.

Lemma execute_chart_code_ret (state : GraphState) (w : World Env) state' w' :
  execute_chart_code state w = (Ret state', w') ->
  (exists marker, state' = set_chart_output (VStr marker) state).
Proof.
  unfold execute_chart_code.
  destruct (is_empty _ || startswith _ "Error").
  - unfold ret. intros H. injection H as <- _. eexists. reflexivity.
  - unfold bind at 1, pure_call.
    destruct (pd_DataFrame _) as [e | df]; [discriminate |].
    unfold bind at 1, effect, try_finally, try_except.
    destruct (render_chart _ df state (plt_close_all w))
      as [[s1 | e | e] w1] eqn:Hrender.
    + intros H. injection H as <- _.
      revert Hrender. unfold render_chart, bind, effect, call, ret.
      destruct (exec_script _ df _) as [[[] | e | e] w2]; try discriminate.
      destruct (os_makedirs _ w2) as [[e | []] w3]; try discriminate.
      destruct (random_choices w3) as [r w4].
      destruct (plt_savefig _ w4) as [[e | []] w5]; try discriminate.
      intros H. injection H as <- _. eexists. reflexivity.
    + unfold bind, effect, ret. intros H. injection H as <- _.
      eexists. reflexivity.
    + discriminate.
Qed.

(** *** The assembly keeps the two slots apart *)

Lemma state_printer_slots (state : GraphState) :
  state_printer state
  = set_final_output (VDict (outputs_of (state_printer state))) state
  /\ dict_get "chart" (outputs_of (state_printer state)) = chart_output state
  /\ forall d key,
       data state = Some (VDict d) -> key <> "chart" ->
       dict_get key (outputs_of (state_printer state))
       = dict_get key (tabular_outputs d []).
Proof.
  destruct state as [q sq dat tg cs co fo nx].
  unfold state_printer, outputs_of.
  cbn [data chart_output final_output set_final_output].
  destruct dat as [[ | b | z | s | l | d | f] |];
    try (destruct co as [chart |]; cbn;
         (split; [reflexivity |]);
         (split; [try rewrite String.eqb_refl; reflexivity |]);
         intros d0 key Hd; discriminate).
  destruct (AssemblySpec.tabular_outputs_slot d) as (Hne & Hchart & Hmsg & _).
  set (outputs := tabular_outputs d []) in *.
  destruct co as [chart |].
  - rewrite AssemblySpec.truthy_dict by apply dict_set_not_nil. cbn [negb].
    split; [reflexivity |].
    split; [apply AssemblySpec.dict_get_set_same |].
    intros d0 key Hd Hkey. injection Hd as <-.
    apply AssemblySpec.dict_get_set_other.
    intros Heq. apply Hkey. symmetry. exact Heq.
  - rewrite AssemblySpec.truthy_dict by exact Hne. cbn [negb].
    split; [reflexivity |].
    split; [exact Hchart |].
    intros d0 key Hd Hkey. injection Hd as <-. reflexivity.
Qed.

Lemma run_from_step (steps : nat) (n : Node) (state : GraphState)
    (visited : list Node) (w : World Env) :
  run_from (S steps) n state visited w
  = match node_action n state w with
    | (Ret state', w1) =>
        match successor n state' w1 with
        | (Ret None, w2) => (Ret (state', (visited ++ [n])%list), w2)
        | (Ret (Some n'), w2) =>
            run_from steps n' state' (visited ++ [n])%list w2
        | (Raise e, w2) => (Raise e, w2)
        | (Unwind e, w2) => (Unwind e, w2)
        end
    | (Raise e, w1) => (Raise e, w1)
    | (Unwind e, w1) => (Unwind e, w1)
    end.
Proof.
  cbn [run_from]. unfold bind.
  destruct (node_action n state w) as [[state' | e | e] w1]; try reflexivity.
  destruct (successor n state' w1) as [[[n' |] | e | e] w2]; reflexivity.
Qed.

(** *** The two runs of the graph *)

Ltac run_step H :=
  rewrite run_from_step in H; cbn [node_action successor] in H.

(** A run that returns took one of the two paths, according to the tag;
    only the chart path sets [chart_output]. *)
Lemma invoke_paths (question : string) (w : World Env) state visited w' :
  invoke question w = (Ret (state, visited), w') ->
  exists t q d pre,
    state = state_printer pre
    /\ tag pre = Some t /\ sql_query pre = Some q /\ data pre = Some (VDict d)
    /\ ((t = "table" /\ visited = table_path /\ chart_output pre = None)
        \/ (t = "chart" /\ visited = chart_path
            /\ exists marker, chart_output pre = Some (VStr marker))).
Proof.
  unfold invoke, recursion_limit, entry_point. intros H.
  run_step H.
  destruct (process_question (initial_state question) w)
    as [[s1 | e | e] w1] eqn:H1; try discriminate.
  apply process_question_ret in H1. destruct H1 as (t & -> & Ht).
  unfold ret at 1 in H. run_step H.
  destruct (generate_sql _ w1) as [[s2 | e | e] w2] eqn:H2; try discriminate.
  apply generate_sql_ret in H2. destruct H2 as (q & ->).
  unfold ret at 1 in H. run_step H.
  destruct (convert_dataframe _ w2) as [[s3 | e | e] w3] eqn:H3;
    try discriminate.
  apply convert_dataframe_ret in H3. destruct H3 as (d & ->).
  unfold ret at 1 in H. run_step H.
  unfold ret at 1 in H.
  unfold conditional_router at 1 in H.
  cbn [tag set_data set_sql_query set_tag next set_next] in H.
  unfold bind, item, ret, raise in H.
  destruct Ht as [-> | ->]; cbn [String.eqb Ascii.eqb Bool.eqb] in H.
  - (* chart *)
    run_step H.
    destruct (generate_chart_instructions _ w3) as [[s5 | e | e] w5] eqn:H5;
      try discriminate.
    apply generate_chart_instructions_ret in H5. destruct H5 as (script & ->).
    unfold ret at 1 in H. run_step H.
    destruct (execute_chart_code _ w5) as [[s6 | e | e] w6] eqn:H6;
      try discriminate.
    apply execute_chart_code_ret in H6. destruct H6 as (marker & ->).
    unfold ret at 1 in H. run_step H.
    unfold ret in H. injection H as <- <- _.
    exists "chart", q, d. eexists. split; [reflexivity |].
    repeat (split; [reflexivity |]).
    right. repeat (split; [reflexivity |]).
    exists marker. reflexivity.
  - (* table *)
    run_step H.
    unfold ret in H. injection H as <- <- _.
    exists "table", q, d. eexists. split; [reflexivity |].
    repeat (split; [reflexivity |]).
    left. repeat split.
Qed.

(** X12.  A run tagged "table" visits no chart node and its final
    output has no chart slot. *)
Lemma invoke_table_run (question : string) (w : World Env) state visited w' :
  invoke question w = (Ret (state, visited), w') ->
  tag state = Some "table" ->
  visited = table_path
  /\ forallb (fun n => negb (is_chart_node n)) visited = true
  /\ final_output state = Some (VDict (outputs_of state))
  /\ dict_get "chart" (outputs_of state) = None.
Proof.
  intros Hrun Htag.
  destruct (invoke_paths question w state visited w' Hrun)
    as (t & q & d & pre & -> & Ht & _ & _ & Hpath).
  destruct (state_printer_slots pre) as (Hfinal & Hchart & _).
  assert (Htag' : tag (state_printer pre) = tag pre)
    by (rewrite Hfinal; reflexivity).
  rewrite Htag', Ht in Htag. injection Htag as ->.
  destruct Hpath as [(_ & -> & Hnone) | (Habs & _)]; [| discriminate].
  split; [reflexivity |].
  split; [reflexivity |].
  split; [rewrite Hfinal at 1; reflexivity |].
  rewrite Hchart. exact Hnone.
Qed.

(** X13.  In a run tagged "chart" the chart slot holds what the chart
    executor stored, and every other slot is what the tabular step makes
    of the data alone. *)
Lemma invoke_chart_run (question : string) (w : World Env) state visited w' :
  invoke question w = (Ret (state, visited), w') ->
  tag state = Some "chart" ->
  visited = chart_path
  /\ final_output state = Some (VDict (outputs_of state))
  /\ exists marker d,
       chart_output state = Some (VStr marker)
       /\ data state = Some (VDict d)
       /\ dict_get "chart" (outputs_of state) = Some (VStr marker)
       /\ forall key, key <> "chart" ->
            dict_get key (outputs_of state)
            = dict_get key (tabular_outputs d []).
Proof.
  intros Hrun Htag.
  destruct (invoke_paths question w state visited w' Hrun)
    as (t & q & d & pre & -> & Ht & _ & Hdata & Hpath).
  destruct (state_printer_slots pre) as (Hfinal & Hchart & Hother).
  assert (Hsame : tag (state_printer pre) = tag pre
                  /\ chart_output (state_printer pre) = chart_output pre
                  /\ data (state_printer pre) = data pre)
    by (rewrite Hfinal; repeat split).
  destruct Hsame as (Htag' & Hco & Hd).
  rewrite Htag', Ht in Htag. injection Htag as ->.
  destruct Hpath as [(Habs & _) | (_ & -> & marker & Hmarker)];
    [discriminate |].
  split; [reflexivity |].
  split; [rewrite Hfinal at 1; reflexivity |].
  exists marker, d.
  split; [rewrite Hco; exact Hmarker |].
  split; [rewrite Hd; exact Hdata |].
  split; [rewrite Hchart; exact Hmarker |].
  intros key Hkey. apply Hother; assumption.
Qed.

(** The tabular step on a single-table result: a frame, unless a
    column is named like the multi-table flag. *)
Lemma tabular_outputs_single (d : Dict) (df : Frame) :
  truth_value (match dict_get "multi_table" d with
               | Some v => v
               | None => VBool false
               end) = inr false ->
  pd_DataFrame (VDict d) = inr df ->
  tabular_outputs d [] = [("dataframe", VFrame df)].
Proof.
  intros Hflag Hframe. unfold tabular_outputs. rewrite Hflag, Hframe.
  reflexivity.
Qed.

Lemma tabular_outputs_multi (tables : list PyVal) :
  tabular_outputs [("multi_table", VBool true); ("tables", VList tables)] []
  = [("multi_table_data", VList tables)].
Proof. reflexivity. Qed.

End Graph.

(** C6.  A run tagged "chart" whose query, [SELECT 1 AS multi_table],
    succeeds and whose chart script raises: [state_printer] takes the
    column named "multi_table" for the multi-table flag, finds no
    "tables" key, and the final output holds the error marker of that
    lookup and the chart error marker, without the tabular data. *)
Theorem invoke_chart_failure_hides_the_table :
  exists state visited w',
    @invoke _ (Demo.collaborators "chart" "SELECT 1 AS multi_table"
                                  Demo.failing_script)
       "plot it" Demo.world0
    = (Ret (state, visited), w')
    /\ tag state = Some "chart"
    /\ data state = Some (VDict [("multi_table", VList [VInt 1])])
    /\ chart_output state
       = Some (VStr "Error executing chart code: bad chart")
    /\ final_output state
       = Some (VDict [("error", VStr "Error creating DataFrame: 'tables'");
                      ("chart", VStr "Error executing chart code: bad chart")])
    /\ is_chart_node (nth 5 visited node_state_printer) = true.
Proof.
  eexists. eexists. eexists.
  split; [vm_compute; reflexivity |].
  repeat split.
Qed.

(** With any other column name the same run returns the table next to
    the chart error marker. *)
Example invoke_chart_failure_keeps_the_table :
  final_outputs
    (@invoke _ (Demo.collaborators "chart" "SELECT region, total FROM sales"
                                   Demo.failing_script)
       "plot it" Demo.world0)
  = Some [("dataframe",
           VFrame [("region", [VStr "north"; VStr "south"]);
                   ("total", [VInt 10; VInt 20])]);
          ("chart", VStr "Error executing chart code: bad chart")].
Proof. reflexivity. Qed.

(** A run tagged "table" goes from the router to the assembly and its
    output has no chart slot. *)
Example invoke_table_skips_the_chart :
  let run := @invoke _ (Demo.collaborators "table" "SELECT 1"
                                           Demo.failing_script)
                "list it" Demo.world0 in
  nodes_run run
  = [node_process_question; node_generate_sql; node_convert_dataframe;
     node_conditional_router; node_state_printer]
  /\ final_outputs run = Some [("dataframe", VFrame [("1", [VInt 1])])].
Proof. split; reflexivity. Qed.

End PipelineSpec.

(** ** More on the string operations *)

Module ReplaceFacts.
Import PyStr Vocabulary PyStrFacts.

Lemma prefix_empty (s : string) : prefix "" s = true.
Proof. destruct s; reflexivity. Qed.

Lemma prefix_cons (a c : ascii) (o s : string) :
  prefix (String a o) (String c s) = Ascii.eqb a c && prefix o s.
Proof.
  cbn [prefix]. destruct (ascii_dec a c) as [-> | Hne].
  - rewrite Ascii.eqb_refl. reflexivity.
  - destruct (Ascii.eqb_spec a c); [contradiction | reflexivity].
Qed.

(** No occurrence of a text starts inside a run that lacks its first
    character. *)
Lemma contains_past_run (y : ascii) (o a b : string) :
  all_chars (other_than y) a = true ->
  contains (String y o) (a ++ b) = contains (String y o) b.
Proof.
  induction a as [| c a IH]; intros H; [reflexivity |].
  rewrite all_chars_cons in H. apply andb_prop in H. destruct H as [Hc Ha].
  cbn [append contains]. rewrite prefix_cons.
  unfold other_than in Hc. apply negb_true_iff in Hc.
  rewrite Ascii.eqb_sym, Hc. cbn [andb orb]. apply IH, Ha.
Qed.

Section Replace.
Variables (old new' : string) (s0 : ascii).
Let new := String s0 new'.

(** A text without the first character of [new] that starts the result
    of a replacement starts the original as well. *)
Lemma prefix_replace_go (o : string) :
  all_chars (other_than s0) o = true ->
  forall s, prefix o (replace_go old new s 0) = true -> prefix o s = true.
Proof.
  induction o as [| a o IH]; intros Ho s H; [apply prefix_empty |].
  rewrite all_chars_cons in Ho. apply andb_prop in Ho. destruct Ho as [Ha Ho].
  destruct s as [| c s]; [discriminate |].
  cbn [replace_go] in H. destruct (prefix old (String c s)).
  - exfalso. unfold new in H. cbn [append] in H. rewrite prefix_cons in H.
    unfold other_than in Ha. apply negb_true_iff in Ha. rewrite Ha in H.
    discriminate.
  - rewrite prefix_cons in H |- *. apply andb_prop in H. destruct H as [Hc Hr].
    rewrite Hc. cbn [andb]. apply IH; assumption.
Qed.

End Replace.

(** After a replacement no occurrence of the old text is left, when the
    new text lacks the first character of the old one and the old text
    lacks the first character of the new one. *)
Lemma replace_go_removes (y s0 : ascii) (old' new' : string) :
  all_chars (other_than y) (String s0 new') = true ->
  all_chars (other_than s0) (String y old') = true ->
  forall s skip,
    contains (String y old')
             (replace_go (String y old') (String s0 new') s skip) = false.
Proof.
  intros Hnew Hold.
  induction s as [| c s IH]; intros skip; [reflexivity |].
  cbn [replace_go]. destruct skip as [| skip]; [| apply IH].
  destruct (prefix (String y old') (String c s)) eqn:Hp.
  - rewrite contains_past_run by exact Hnew. apply IH.
  - cbn [contains]. rewrite IH, orb_false_r.
    destruct (prefix (String y old')
                (String c (replace_go (String y old') (String s0 new') s 0)))
      eqn:Hr; [| reflexivity].
    rewrite prefix_cons in Hr, Hp. apply andb_prop in Hr. destruct Hr as [Hc Hr].
    rewrite Hc in Hp. cbn [andb] in Hp.
    rewrite all_chars_cons in Hold. apply andb_prop in Hold.
    rewrite (prefix_replace_go _ _ _ old' (proj2 Hold) s Hr) in Hp.
    discriminate.
Qed.

(** *** Splitting at one character *)

Lemma split_go_char_whole (a : ascii) (s : string) :
  all_chars (other_than a) s = true ->
  split_go (String a "") s 0 = (s, []).
Proof.
  induction s as [| c s IH]; intros H; [reflexivity |].
  rewrite all_chars_cons in H. apply andb_prop in H. destruct H as [Hc Hs].
  cbn [split_go]. rewrite prefix_cons.
  unfold other_than in Hc. apply negb_true_iff in Hc.
  rewrite Ascii.eqb_sym, Hc. cbn [andb]. rewrite (IH Hs). reflexivity.
Qed.

Lemma split_char_whole (a : ascii) (s : string) :
  all_chars (other_than a) s = true -> split (String a "") s = [s].
Proof.
  intros H. unfold split. rewrite split_go_char_whole by exact H. reflexivity.
Qed.

Lemma split_char_app (a : ascii) (x s : string) :
  all_chars (other_than a) x = true ->
  split (String a "") (x ++ String a s) = x :: split (String a "") s.
Proof.
  unfold split. induction x as [| c x IH]; intros H.
  - cbn [append split_go]. rewrite prefix_cons, Ascii.eqb_refl, prefix_empty.
    cbn [andb String.length Nat.sub].
    destruct (split_go (String a "") s 0) as [h t]. reflexivity.
  - rewrite all_chars_cons in H. apply andb_prop in H. destruct H as [Hc Hx].
    cbn [append split_go]. rewrite prefix_cons.
    unfold other_than in Hc. apply negb_true_iff in Hc.
    rewrite Ascii.eqb_sym, Hc. cbn [andb].
    specialize (IH Hx).
    destruct (split_go (String a "") (x ++ String a s) 0) as [h t].
    injection IH as -> ->. reflexivity.
Qed.

Lemma join_chars p (sep : string) (parts : list string) :
  all_chars p sep = true ->
  Forall (fun piece => all_chars p piece = true) parts ->
  all_chars p (join sep parts) = true.
Proof.
  intros Hsep H. induction H as [| x l Hx Hl IH]; [reflexivity |].
  cbn [join]. destruct l as [| y l]; [exact Hx |].
  rewrite !all_chars_app, Hx, Hsep. exact IH.
Qed.

Lemma filter_pieces p (f : string -> bool) (parts : list string) :
  Forall (fun piece => all_chars p piece = true) parts ->
  Forall (fun piece => all_chars p piece = true) (filter f parts).
Proof.
  intros H. induction H as [| x l Hx Hl IH]; [constructor |].
  cbn [filter]. destruct (f x); [constructor; assumption | exact IH].
Qed.

End ReplaceFacts.

(** ** More on the pattern matcher *)

Module EngineFacts.
Import PyStr PyRe Utils Vocabulary PyStrFacts ReplaceFacts.

Section Inversion.
Context {A : Type}.

(** A match of [p+] has consumed a non-empty run of [p]. *)
Lemma plus_greedy_inv (p : ascii -> bool) (s : string)
    (k : string -> option A) (r : A) :
  plus_greedy p s k = Some r ->
  exists run s', s = run ++ s' /\ run <> "" /\ all_chars p run = true
                 /\ k s' = Some r.
Proof.
  induction s as [| c s IH]; cbn [plus_greedy]; [discriminate |].
  destruct (p c) eqn:Hc; [| discriminate].
  destruct (plus_greedy p s k) as [r' |] eqn:Hrest.
  - intros H. injection H as <-.
    destruct (IH eq_refl) as (run & s' & -> & _ & Hrun & Hk).
    exists (String c run), s'. repeat split; try assumption; try discriminate.
    rewrite all_chars_cons, Hc. exact Hrun.
  - intros Hk. exists (String c ""), s. repeat split; try assumption;
      try discriminate.
    cbn. rewrite Hc. reflexivity.
Qed.

Lemma star_lazy_inv (p : ascii -> bool) (s : string)
    (k : string -> option A) (r : A) :
  star_lazy p s k = Some r -> exists s', k s' = Some r.
Proof.
  induction s as [| c s IH].
  - cbn [star_lazy]. destruct (k "") eqn:Hk; [| discriminate].
    intros H. injection H as <-. exists "". exact Hk.
  - cbn [star_lazy]. destruct (k (String c s)) eqn:Hk.
    + intros H. injection H as <-. eexists. exact Hk.
    + destruct (p c); [exact IH | discriminate].
Qed.

(** Whatever matched, the rest of the pattern matched somewhere. *)
Lemma match_items_inv (items : list item) :
  forall (s : string) (k : string -> option A) (r : A),
    match_items items s k = Some r -> exists s', k s' = Some r.
Proof.
  induction items as [| [p | p | p] items IH]; intros s k r H.
  - exists s. exact H.
  - cbn [match_items] in H. destruct s as [| c s]; [discriminate |].
    destruct (p c); [| discriminate]. apply (IH _ _ _ H).
  - cbn [match_items] in H.
    destruct (plus_greedy_inv _ _ _ _ H) as (_ & s' & _ & _ & _ & Hk).
    apply (IH _ _ _ Hk).
  - cbn [match_items] in H.
    destruct (star_lazy_inv _ _ _ _ H) as (s' & Hk).
    apply (IH _ _ _ Hk).
Qed.

(** [p*?] passes over a run inside which the rest cannot match. *)
Lemma star_lazy_skip (p : ascii -> bool) (a b : string)
    (k : string -> option A) :
  all_chars p a = true ->
  (forall x q, a = x ++ q -> q <> "" -> k (q ++ b) = None) ->
  star_lazy p (a ++ b) k = star_lazy p b k.
Proof.
  induction a as [| c a IH]; intros Hall Hk; [reflexivity |].
  rewrite all_chars_cons in Hall. apply andb_prop in Hall.
  destruct Hall as [Hc Ha].
  assert (H0 : k (String c a ++ b) = None)
    by (apply (Hk "" (String c a)); [reflexivity | discriminate]).
  cbn [append] in H0 |- *. cbn [star_lazy]. rewrite H0, Hc.
  apply IH; [exact Ha |].
  intros x q -> Hq. apply (Hk (String c x) q); [reflexivity | exact Hq].
Qed.

Lemma star_lazy_here (p : ascii -> bool) (s : string)
    (k : string -> option A) (r : A) :
  k s = Some r -> star_lazy p s k = Some r.
Proof. intros H. destruct s; cbn [star_lazy]; rewrite H; reflexivity. Qed.

Lemma match_literal_exactly (lit t : string) (k : string -> option A) :
  match_items (literal exactly lit) (lit ++ t) k = k t.
Proof.
  induction lit as [| a lit IH]; [reflexivity |].
  cbn [literal append match_items]. unfold exactly at 1.
  rewrite Ascii.eqb_refl. exact IH.
Qed.

Lemma match_literal_first (a : ascii) (lit : string) (c : ascii) (s : string)
    (k : string -> option A) :
  Ascii.eqb a c = false ->
  match_items (literal exactly (String a lit)) (String c s) k = None.
Proof.
  intros H. cbn [literal match_items]. unfold exactly at 1. rewrite H.
  reflexivity.
Qed.

End Inversion.

Lemma search_inv (r : pattern) (s g : string) :
  search r s = Some g -> exists s', match_here r s' = Some g.
Proof.
  induction s as [| c s IH]; cbn [search].
  - destruct (match_here r "") eqn:H; [| discriminate].
    intros H0. injection H0 as <-. exists "". exact H.
  - destruct (match_here r (String c s)) eqn:H.
    + intros H0. injection H0 as <-. eexists. exact H.
    + exact IH.
Qed.

(** With [(p+)] for group 1, [group(1)] is a non-empty run of [p]. *)
Lemma match_here_group (r : pattern) (p : ascii -> bool) (s g : string) :
  group r = [Plus p] ->
  match_here r s = Some g ->
  g <> "" /\ all_chars p g = true.
Proof.
  intros Hgroup H. unfold match_here in H. rewrite Hgroup in H.
  destruct (match_items_inv _ _ _ _ H) as (s1 & H1).
  cbn [match_items] in H1.
  destruct (plus_greedy_inv _ _ _ _ H1) as (run & s2 & -> & Hne & Hrun & H2).
  destruct (match_items_inv _ _ _ _ H2) as (s3 & H3).
  rewrite TableNameSpec.substring_prefix in H3. injection H3 as <-.
  split; assumption.
Qed.

End EngineFacts.

(** ** The fenced block of a query *)

Module FenceFacts.
Import PyStr PyRe Utils Vocabulary PyStrFacts ReplaceFacts.

Lemma lower_app (a b : string) : lower (a ++ b) = lower a ++ lower b.
Proof.
  induction a as [| c a IH]; [reflexivity |].
  cbn [append lower]. rewrite IH. reflexivity.
Qed.

Lemma lower_char_keeps_others (c : ascii) :
  other_than "`" c = true -> other_than "`" (lower_char c) = true.
Proof.
  destruct c as [[] [] [] [] [] [] [] []]; vm_compute; congruence.
Qed.

Lemma lower_keeps_others (s : string) :
  all_chars (other_than "`") s = true ->
  all_chars (other_than "`") (lower s) = true.
Proof.
  induction s as [| c s IH]; [reflexivity |].
  cbn [lower]. rewrite !all_chars_cons. intros H. apply andb_prop in H.
  destruct H as [Hc Hs]. rewrite (lower_char_keeps_others c Hc). apply IH, Hs.
Qed.

Lemma lower_keeps_stop (s : string) :
  stops (fun c => Ascii.eqb c "`") s = true ->
  stops (fun c => Ascii.eqb c "`") (lower s) = true.
Proof.
  destruct s as [| c s]; [reflexivity |].
  cbn [lower stops]. intros H.
  apply (lower_char_keeps_others c). exact H.
Qed.

Lemma prefix_app (s t : string) : prefix s (s ++ t) = true.
Proof.
  induction s as [| c s IH]; [apply prefix_empty |].
  cbn [append]. rewrite prefix_cons, Ascii.eqb_refl. exact IH.
Qed.

Lemma contains_app (sep pre rest : string) :
  contains sep (pre ++ sep ++ rest) = true.
Proof.
  induction pre as [| c pre IH].
  - cbn [append]. destruct (sep ++ rest) eqn:E; cbn [contains];
      rewrite <- E, prefix_app; reflexivity.
  - cbn [append contains]. rewrite IH. apply orb_true_r.
Qed.

(** The characters of a separator that has been found are passed over. *)
Lemma split_go_skip (sep x rest : string) :
  split_go sep (x ++ rest) (String.length x) = split_go sep rest 0.
Proof.
  induction x as [| c x IH]; [reflexivity |].
  cbn [append String.length split_go]. exact IH.
Qed.

(** The first piece ends where the separator first occurs, when the
    text before it lacks the separator's first character. *)
Lemma split_go_first (a : ascii) (sep' pre rest : string) :
  all_chars (other_than a) pre = true ->
  split_go (String a sep') (pre ++ String a sep' ++ rest) 0
  = (pre, fst (split_go (String a sep') rest 0)
          :: snd (split_go (String a sep') rest 0)).
Proof.
  induction pre as [| c pre IH]; intros H.
  - cbn [append split_go].
    assert (Hp : prefix (String a sep') (String a (sep' ++ rest)) = true)
      by apply (prefix_app (String a sep') rest).
    rewrite Hp. cbn [String.length]. rewrite Nat.sub_succ, Nat.sub_0_r.
    rewrite split_go_skip.
    destruct (split_go (String a sep') rest 0). reflexivity.
  - rewrite all_chars_cons in H. apply andb_prop in H. destruct H as [Hc Hp].
    change (String c pre ++ String a sep' ++ rest)
      with (String c (pre ++ String a sep' ++ rest)).
    cbn [split_go]. rewrite prefix_cons.
    unfold other_than in Hc. apply negb_true_iff in Hc.
    rewrite Ascii.eqb_sym, Hc. cbn [andb]. rewrite (IH Hp). reflexivity.
Qed.

Lemma fst_split_go_match (sep : string) (c : ascii) (s : string) :
  prefix sep (String c s) = true ->
  fst (split_go sep (String c s) 0) = "".
Proof. intros H. cbn [split_go]. rewrite H. reflexivity. Qed.

Lemma fst_split_go_other (sep : string) (c : ascii) (s : string) :
  prefix sep (String c s) = false ->
  fst (split_go sep (String c s) 0) = String c (fst (split_go sep s 0)).
Proof.
  intros H. cbn [split_go]. rewrite H.
  destruct (split_go sep s 0). reflexivity.
Qed.

(** Cutting at the next marker and then at the next fence gives the
    body of the block. *)
Lemma fenced_body (body post : string) :
  all_chars (other_than "`") body = true ->
  stops (fun c => Ascii.eqb c "`") post = true ->
  fst (split_go "```" (fst (split_go "```sql" (body ++ "```" ++ post) 0)) 0)
  = body.
Proof.
  intros Hbody Hpost. induction body as [| c body IH].
  - change ("" ++ "```" ++ post)
      with (String "`" (String "`" (String "`" post))).
    destruct (prefix "```sql" (String "`" (String "`" (String "`" post))))
      eqn:Hsql.
    + rewrite (fst_split_go_match _ _ _ Hsql). reflexivity.
    + assert (Hno : forall t, prefix (String "`" t) post = false).
      { intros t. destruct post as [| c post]; [reflexivity |].
        rewrite prefix_cons. cbn [stops] in Hpost.
        apply negb_true_iff in Hpost. rewrite Ascii.eqb_sym, Hpost.
        reflexivity. }
      rewrite (fst_split_go_other _ _ _ Hsql).
      rewrite (fst_split_go_other "```sql" "`" (String "`" post))
        by (rewrite !prefix_cons, !Ascii.eqb_refl; apply Hno).
      rewrite (fst_split_go_other "```sql" "`" post)
        by (rewrite !prefix_cons, !Ascii.eqb_refl; apply Hno).
      apply fst_split_go_match.
      rewrite !prefix_cons, !Ascii.eqb_refl. apply prefix_empty.
  - rewrite all_chars_cons in Hbody. apply andb_prop in Hbody.
    destruct Hbody as [Hc Hb]. specialize (IH Hb).
    unfold other_than in Hc. apply negb_true_iff in Hc.
    change (String c body ++ "```" ++ post)
      with (String c (body ++ "```" ++ post)).
    rewrite (fst_split_go_other "```sql" c (body ++ "```" ++ post))
      by (rewrite prefix_cons, Ascii.eqb_sym, Hc; reflexivity).
    rewrite fst_split_go_other
      by (rewrite prefix_cons, Ascii.eqb_sym, Hc; reflexivity).
    rewrite IH. reflexivity.
Qed.

End FenceFacts.

(** ** More on the text utilities *)

Module UtilsExtra.
Import PyStr PyRe Utils Vocabulary PyStrFacts ReplaceFacts EngineFacts FenceFacts.

(** X1.  Whatever the response, the text [extract_sql_code] returns
    holds no occurrence of the placeholder "your_table_name". *)
Theorem extract_sql_code_drops_placeholder :
  forall response : string,
    contains "your_table_name" (extract_sql_code response) = false.
Proof.
  intros response.
  assert (H : forall x, contains "your_table_name" (placeholder x) = false).
  { intros x. unfold placeholder, replace.
    apply replace_go_removes; reflexivity. }
  unfold extract_sql_code.
  destruct (contains "```sql" _); [apply H |].
  destruct (if contains "`" _ then _ else None); [apply H |].
  destruct (find _ _); apply H.
Qed.

(** The text left after the comment lines are dropped. *)
Lemma cleaned_sql_chars p (sql_text : string) :
  p "010"%char = true ->
  all_chars p sql_text = true ->
  all_chars p (join nl (filter not_comment (split nl sql_text))) = true.
Proof.
  intros Hnl H. apply join_chars.
  - cbn. rewrite Hnl. reflexivity.
  - apply filter_pieces, split_pieces, H.
Qed.

(** X2.  A text without ";" holds at most one statement and is never
    taken for a multi-statement query. *)
Theorem split_sql_statements_needs_terminator :
  forall sql_text : string,
    all_chars (other_than ";") sql_text = true ->
    List.length (split_sql_statements sql_text) <= 1
    /\ is_multi_statement_sql sql_text = false.
Proof.
  intros sql_text H.
  assert (Hlen : List.length (split_sql_statements sql_text) <= 1).
  { rewrite UtilsSpec.split_sql_statements_pipeline.
    rewrite split_char_whole by (apply cleaned_sql_chars; [reflexivity | exact H]).
    cbn [filter]. destruct (not_blank _); cbn; lia. }
  split; [exact Hlen |].
  unfold is_multi_statement_sql. destruct (is_empty sql_text); [reflexivity |].
  apply Nat.ltb_ge. exact Hlen.
Qed.

Lemma split_sql_statements_needs_terminator_witness :
  List.length (split_sql_statements ("-- totals" ++ nl ++ "SELECT 1")) <= 1
  /\ is_multi_statement_sql ("-- totals" ++ nl ++ "SELECT 1") = false.
Proof.
  apply (split_sql_statements_needs_terminator
           ("-- totals" ++ nl ++ "SELECT 1")).
  reflexivity.
Defined.

(** X3.  A full-line comment in front of a text does not change the
    statements found in it. *)
Theorem split_sql_statements_skips_leading_comment :
  forall comment sql_text : string,
    all_chars (other_than "010") comment = true ->
    startswith (strip comment) "--" = true ->
    split_sql_statements (comment ++ nl ++ sql_text)
    = split_sql_statements sql_text.
Proof.
  intros comment sql_text Hline Hcomment.
  rewrite !UtilsSpec.split_sql_statements_pipeline.
  change (comment ++ nl ++ sql_text) with (comment ++ String "010" sql_text).
  change nl with (String "010" "") at 2.
  rewrite split_char_app by exact Hline.
  cbn [filter]. unfold not_comment at 1. rewrite Hcomment. reflexivity.
Qed.

Lemma split_sql_statements_skips_leading_comment_witness :
  split_sql_statements ("  -- monthly totals" ++ nl ++ "SELECT 1; SELECT 2;")
  = split_sql_statements "SELECT 1; SELECT 2;".
Proof.
  apply (split_sql_statements_skips_leading_comment
           "  -- monthly totals" "SELECT 1; SELECT 2;");
    reflexivity.
Defined.

(** X4.  The name [extract_table_name_from_sql] returns is a non-empty
    run of word characters, or else "Unknown Table"; the latter is
    returned only when neither pattern matches, and is no possible
    name. *)
Theorem extract_table_name_from_sql_shape :
  forall sql_statement : string,
    (search from_clause sql_statement = None
     /\ search table_comment sql_statement = None
     /\ extract_table_name_from_sql sql_statement = "Unknown Table")
    \/ (extract_table_name_from_sql sql_statement <> ""
        /\ all_chars word_class
                     (extract_table_name_from_sql sql_statement) = true
        /\ extract_table_name_from_sql sql_statement <> "Unknown Table").
Proof.
  intros sql_statement.
  assert (Hname : forall r name,
            group r = [Plus word_class] ->
            search r sql_statement = Some name ->
            name <> "" /\ all_chars word_class name = true
            /\ name <> "Unknown Table").
  { intros r name Hgroup Hsearch.
    destruct (search_inv _ _ _ Hsearch) as (s' & Hhere).
    destruct (match_here_group r word_class s' name Hgroup Hhere) as [Hne Hw].
    repeat split; try assumption.
    intros ->. discriminate. }
  unfold extract_table_name_from_sql.
  destruct (search from_clause sql_statement) as [name |] eqn:Hfrom.
  - right. apply (Hname from_clause name eq_refl Hfrom).
  - destruct (search table_comment sql_statement) as [name |] eqn:Hcomment.
    + right. apply (Hname table_comment name eq_refl Hcomment).
    + left. repeat split.
Qed.

(** *** The fenced block of a query *)

Lemma nth_0_split (sep s : string) :
  nth 0 (split sep s) "" = fst (split_go sep s 0).
Proof. unfold split. destruct (split_go sep s 0). reflexivity. Qed.

(** X15.  When the cleaned response holds a block opened by "```sql"
    in any case and closed by "```", with no backtick before it nor
    inside it and none right after it, [extract_sql_code] returns the
    content of the block in lower case, trimmed, with the placeholder
    substituted. *)
Theorem extract_sql_code_fenced_block :
  forall response pre marker body post : string,
    placeholder (strip (replace "SQLQuery:" "" response))
    = pre ++ marker ++ body ++ "```" ++ post ->
    lower marker = "```sql" ->
    all_chars (other_than "`") pre = true ->
    all_chars (other_than "`") body = true ->
    stops (fun c => Ascii.eqb c "`") post = true ->
    extract_sql_code response = placeholder (strip (lower body)).
Proof.
  intros response pre marker body post Htext Hmarker Hpre Hbody Hpost.
  unfold extract_sql_code. rewrite Htext.
  rewrite !lower_app, Hmarker.
  change (lower "```") with "```".
  rewrite contains_app.
  rewrite nth_0_split. unfold split at 1.
  rewrite (split_go_first "`" "``sql" (lower pre)
             (lower body ++ "```" ++ lower post))
    by (apply lower_keeps_others, Hpre).
  cbn [nth].
  rewrite fenced_body;
    [reflexivity | apply lower_keeps_others, Hbody
     | apply lower_keeps_stop, Hpost].
Qed.

Lemma extract_sql_code_fenced_block_witness :
  extract_sql_code
    ("SQLQuery: here:" ++ nl ++ "```SQL" ++ nl
     ++ "SELECT Name FROM YOUR_TABLE_NAME" ++ nl ++ "```" ++ nl ++ "Done.")
  = placeholder (strip (lower (nl ++ "SELECT Name FROM YOUR_TABLE_NAME" ++ nl))).
Proof.
  apply (extract_sql_code_fenced_block _
           ("here:" ++ nl) "```SQL"
           (nl ++ "SELECT Name FROM YOUR_TABLE_NAME" ++ nl)
           (nl ++ "Done."));
    reflexivity.
Defined.

Example extract_sql_code_lowered_placeholder :
  extract_sql_code
    ("SQLQuery: here:" ++ nl ++ "```SQL" ++ nl
     ++ "SELECT Name FROM YOUR_TABLE_NAME" ++ nl ++ "```" ++ nl ++ "Done.")
  = "select name from store_sales_data".
Proof. reflexivity. Qed.

(** *** The fenced block of a chart script *)

Lemma all_chars_suffix p (x q : string) :
  all_chars p (x ++ q) = true -> all_chars p q = true.
Proof.
  rewrite all_chars_app. intros H. apply andb_prop in H. apply H.
Qed.

(** The closing fence does not match inside a body free of backticks. *)
Lemma closing_fence_not_inside {A} (q post : string)
    (k : string -> option A) :
  q <> "" ->
  all_chars (other_than "`") q = true ->
  match_items (literal exactly (nl ++ "```")) (q ++ nl ++ "```" ++ post) k
  = None.
Proof.
  intros Hq Hall. destruct q as [| c q]; [contradiction |].
  unfold nl. cbn [append].
  destruct (Ascii.eqb "010" c) eqn:Hc; [| apply match_literal_first, Hc].
  cbn [literal match_items]. unfold exactly at 1. rewrite Hc.
  destruct q as [| c' q]; [reflexivity |].
  rewrite !all_chars_cons in Hall. apply andb_prop in Hall.
  destruct Hall as [_ Hall]. apply andb_prop in Hall. destruct Hall as [Hc' _].
  unfold other_than in Hc'. apply negb_true_iff in Hc'.
  cbn [append]. unfold exactly at 1. rewrite Ascii.eqb_sym, Hc'. reflexivity.
Qed.

Lemma python_fence_here (body post : string) :
  all_chars (other_than "`") body = true ->
  match_here python_fence
    (("```python" ++ nl) ++ body ++ (nl ++ "```") ++ post)
  = Some body.
Proof.
  intros Hbody. unfold match_here, python_fence. cbn [before group after].
  rewrite match_literal_exactly. cbn [match_items].
  rewrite star_lazy_skip.
  - apply star_lazy_here. rewrite match_literal_exactly.
    rewrite TableNameSpec.substring_prefix. reflexivity.
  - clear. induction body; [reflexivity | assumption].
  - intros x q -> Hq.
    rewrite TableNameSpec.app_assoc_string.
    apply closing_fence_not_inside; [exact Hq |].
    apply (all_chars_suffix _ x q Hbody).
Qed.

Lemma python_fence_needs_backtick (s : string) :
  stops (fun c => Ascii.eqb c "`") s = true ->
  match_here python_fence s = None.
Proof.
  destruct s as [| c s]; [reflexivity |].
  cbn [stops]. intros H. apply negb_true_iff in H.
  unfold match_here, python_fence. cbn [before group after].
  apply match_literal_first. rewrite Ascii.eqb_sym. exact H.
Qed.

(** X5.  When the cleaned response holds a [```python] block, with no
    backtick before it nor inside it, [extract_python_code] returns the
    content of the block, trimmed and otherwise unchanged, whatever
    surrounds it. *)
Theorem extract_python_code_returns_the_block :
  forall response pre body post : string,
    cleaned_script_text response
    = pre ++ ("```python" ++ nl) ++ body ++ (nl ++ "```") ++ post ->
    all_chars (other_than "`") pre = true ->
    all_chars (other_than "`") body = true ->
    extract_python_code response = strip body.
Proof.
  intros response pre body post Htext Hpre Hbody.
  unfold extract_python_code. fold (cleaned_script_text response).
  rewrite Htext, TableNameSpec.search_skips.
  - rewrite (TableNameSpec.search_found _ _ body); [reflexivity |].
    apply python_fence_here, Hbody.
  - intros p q -> Hq. apply python_fence_needs_backtick.
    destruct q as [| c q]; [contradiction |].
    apply all_chars_suffix in Hpre. rewrite all_chars_cons in Hpre.
    apply andb_prop in Hpre. destruct Hpre as [Hc _].
    cbn [append stops]. exact Hc.
Qed.

Lemma extract_python_code_returns_the_block_witness :
  extract_python_code
    ("Python Script: here it is" ++ nl ++ "```python" ++ nl
     ++ "  Plt.Bar(df.Total)  " ++ nl ++ "```" ++ nl ++ "Enjoy `it`.")
  = strip "  Plt.Bar(df.Total)  ".
Proof.
  apply (extract_python_code_returns_the_block _
           ("here it is" ++ nl) "  Plt.Bar(df.Total)  "
           (nl ++ "Enjoy `it`."));
    reflexivity.
Defined.

(** X6.  Whichever tier answers, the script [extract_python_code]
    returns has no whitespace at either end. *)
Theorem extract_python_code_is_trimmed :
  forall response : string,
    strip (extract_python_code response) = extract_python_code response.
Proof.
  intros response. unfold extract_python_code.
  destruct (search python_fence _); [apply strip_idempotent |].
  destruct (collect_code _ []); apply strip_idempotent.
Qed.

End UtilsExtra.

(** ** More on the nodes and the graph *)

Module AgentExtra.
Import PyStr Utils Py Agent Vocabulary PyFacts.

Section Nodes.
Context {Env : Type} `{C : Collaborators Env}.

Lemma process_question_returns (state : GraphState) (q content : string)
    (w w1 : World Env) :
  question state = Some q ->
  llm_invoke (tag_prompt q) w = (inr content, w1) ->
  exists t, process_question state w = (Ret (set_tag t state), w1).
Proof.
  intros Hq Hllm. unfold process_question, tag_question_type, bind, call.
  rewrite Hq. cbn [item ret]. rewrite Hllm. eexists. reflexivity.
Qed.

Lemma generate_sql_returns (state : GraphState) (q raw : string)
    (w w1 : World Env) :
  question state = Some q ->
  sql_generator_invoke q w = (inr raw, w1) ->
  generate_sql state w
  = (Ret (set_sql_query (extract_sql_code raw) state), w1).
Proof.
  intros Hq Hgen. unfold generate_sql, bind, call.
  rewrite Hq. cbn [item ret]. rewrite Hgen. reflexivity.
Qed.

Lemma convert_dataframe_single_failure (state : GraphState) (q : string)
    (e : PyExn) (w w1 : World Env) :
  sql_query state = Some q ->
  is_multi_statement_sql q = false ->
  read_sql q w = (inl e, w1) ->
  convert_dataframe state w = (Raise e, w1).
Proof.
  intros Hq Hsingle Hread. unfold convert_dataframe, bind at 1.
  rewrite Hq. cbn [item ret]. rewrite Hsingle.
  unfold bind, call. rewrite Hread. reflexivity.
Qed.

(** X7.  When the generated query is a single statement and the
    database refuses it, the run raises that exception: unlike a batch,
    nothing is recorded as data and the assembly is never reached. *)
Theorem invoke_single_statement_failure :
  forall (question content raw : string) (e : PyExn)
         (w w1 w2 w3 : World Env),
    llm_invoke (tag_prompt question) w = (inr content, w1) ->
    sql_generator_invoke question w1 = (inr raw, w2) ->
    is_multi_statement_sql (extract_sql_code raw) = false ->
    read_sql (extract_sql_code raw) w2 = (inl e, w3) ->
    invoke question w = (Raise e, w3).
Proof.
  intros question content raw e w w1 w2 w3 Hllm Hgen Hsingle Hread.
  unfold invoke, recursion_limit, entry_point.
  destruct (process_question_returns (initial_state question) question
              content w w1 eq_refl Hllm) as (t & Htag).
  rewrite PipelineSpec.run_from_step. cbn [node_action successor].
  rewrite Htag. unfold ret at 1.
  rewrite PipelineSpec.run_from_step. cbn [node_action successor].
  rewrite (generate_sql_returns (set_tag t (initial_state question))
             question raw w1 w2 eq_refl Hgen).
  unfold ret at 1.
  rewrite PipelineSpec.run_from_step. cbn [node_action successor].
  rewrite (convert_dataframe_single_failure
             (set_sql_query (extract_sql_code raw)
                (set_tag t (initial_state question)))
             (extract_sql_code raw) e w2 w3 eq_refl Hsingle Hread).
  reflexivity.
Qed.

(** X8.  The frame is built before the [try]: when [pd.DataFrame]
    refuses the data, the exception leaves [execute_chart_code], the
    script is not run and the figures are not touched. *)
Theorem execute_chart_code_frame_failure :
  forall (state : GraphState) (w : World Env) (e : PyExn),
    is_empty (script_of state) || startswith (script_of state) "Error" = false ->
    pd_DataFrame (frame_source state) = inl e ->
    execute_chart_code state w = (Raise e, w).
Proof.
  intros state w e Hscript Hframe.
  unfold execute_chart_code. fold (script_of state). fold (frame_source state).
  rewrite Hscript, Hframe. reflexivity.
Qed.

(** X9.  An exception outside [Exception] raised by the script (a call
    of [sys.exit], say) is not caught: it leaves [execute_chart_code],
    after the [finally] clause has closed every figure. *)
Theorem execute_chart_code_exit_escapes :
  forall (state : GraphState) (w w1 : World Env) (df : Frame) (e : PyExn),
    is_empty (script_of state) || startswith (script_of state) "Error" = false ->
    pd_DataFrame (frame_source state) = inr df ->
    exec_script (script_of state) df (plt_figure (plt_close_all w))
    = (Unwind e, w1) ->
    execute_chart_code state w = (Unwind e, plt_close_all w1)
    /\ open_figures (snd (execute_chart_code state w)) = 0.
Proof.
  intros state w w1 df e Hscript Hframe Hexec.
  rewrite (ChartSpec.execute_chart_code_unfolded state w df Hscript Hframe).
  unfold render_chart, bind, effect. rewrite Hexec. split; reflexivity.
Qed.

(** X10.  When the script, the directory, and the save all succeed,
    [chart_output] is the very path the figure was saved under:
    "chart_", the time, "_", the random suffix and ".png", inside
    "generated_charts"; no figure is left open. *)
Theorem execute_chart_code_saves_chart :
  forall (state : GraphState) (w w1 w2 w3 w4 : World Env) (df : Frame)
         (suffix : string),
    is_empty (script_of state) || startswith (script_of state) "Error" = false ->
    pd_DataFrame (frame_source state) = inr df ->
    exec_script (script_of state) df (plt_figure (plt_close_all w))
    = (Ret tt, w1) ->
    os_makedirs "generated_charts" w1 = (inr tt, w2) ->
    random_choices w2 = (suffix, w3) ->
    plt_savefig
      (os_path_join "generated_charts"
         ("chart_" ++ str_of_N (time_time w2) ++ "_" ++ suffix ++ ".png")) w3
    = (inr tt, w4) ->
    execute_chart_code state w
    = (Ret (set_chart_output
              (VStr (os_path_join "generated_charts"
                       ("chart_" ++ str_of_N (time_time w2) ++ "_" ++ suffix
                        ++ ".png")))
              state),
       plt_close_all w4).
Proof.
  intros state w w1 w2 w3 w4 df suffix Hscript Hframe Hexec Hdir Hrand Hsave.
  rewrite (ChartSpec.execute_chart_code_unfolded state w df Hscript Hframe).
  unfold render_chart, bind, effect, call, ret.
  rewrite Hexec, Hdir, Hrand, Hsave. reflexivity.
Qed.

(** X11.  Without data the chart branch asks the model nothing and runs
    nothing: the instructions node stores an error text as the script,
    the executor rejects it, and the world is left as it was. *)
Theorem chart_branch_without_data :
  forall (state : GraphState) (w : World Env) (q : string),
    question state = Some q ->
    data state = None \/ data state = Some VNone ->
    generate_chart_instructions state w
    = (Ret (set_chart_script "Error: No DataFrame in state." state), w)
    /\ execute_chart_code
         (set_chart_script "Error: No DataFrame in state." state) w
       = (Ret (set_chart_output (VStr "Error: No chart script available")
                 (set_chart_script "Error: No DataFrame in state." state)),
          w).
Proof.
  intros state w q Hq Hdata. split.
  - unfold generate_chart_instructions, bind. rewrite Hq. cbn [item ret].
    destruct Hdata as [-> | ->]; reflexivity.
  - apply ChartSpec.execute_chart_code_rejects. reflexivity.
Qed.

End Nodes.

Lemma invoke_single_statement_failure_witness :
  @invoke _ (Demo.collaborators "table" "SELEC 1" "") "list it" Demo.world0
  = (Raise (Exn "DatabaseError" "Execution failed on sql: SELEC 1"),
     MkWorld 2 ["SELEC 1"]).
Proof.
  apply (@invoke_single_statement_failure _
           (Demo.collaborators "table" "SELEC 1" "")
           "list it" "table" "SELEC 1"
           (Exn "DatabaseError" "Execution failed on sql: SELEC 1")
           Demo.world0 Demo.world0 Demo.world0 (MkWorld 2 ["SELEC 1"]));
    reflexivity.
Defined.

Lemma execute_chart_code_frame_failure_witness :
  @execute_chart_code _ (Demo.collaborators "chart" "SELECT 1" "")
     Demo.unframed_state Demo.world0
  = (Raise (Exn "ValueError" "DataFrame constructor not properly called!"),
     Demo.world0).
Proof.
  apply (@execute_chart_code_frame_failure _
           (Demo.collaborators "chart" "SELECT 1" "")
           Demo.unframed_state Demo.world0);
    reflexivity.
Defined.

Lemma execute_chart_code_exit_escapes_witness :
  @execute_chart_code _ (Demo.collaborators "chart" "SELECT 1" "")
     Demo.exit_state Demo.world0
  = (Unwind (Exn "SystemExit" "1"), MkWorld 0 [])
  /\ open_figures
       (snd (@execute_chart_code _ (Demo.collaborators "chart" "SELECT 1" "")
               Demo.exit_state Demo.world0)) = 0.
Proof.
  apply (@execute_chart_code_exit_escapes _
           (Demo.collaborators "chart" "SELECT 1" "")
           Demo.exit_state Demo.world0 (MkWorld 2 [])
           [("total", [VInt 10; VInt 20])] (Exn "SystemExit" "1"));
    reflexivity.
Defined.

Lemma execute_chart_code_saves_chart_witness :
  @execute_chart_code _ (Demo.collaborators "chart" "SELECT 1" "")
     Demo.drawing_state Demo.world0
  = (Ret (set_chart_output
            (VStr "generated_charts/chart_1700000000_k3x9qa.png")
            Demo.drawing_state),
     MkWorld 0 []).
Proof.
  apply (@execute_chart_code_saves_chart _
           (Demo.collaborators "chart" "SELECT 1" "")
           Demo.drawing_state Demo.world0
           (MkWorld 1 []) (MkWorld 1 []) (MkWorld 1 []) (MkWorld 1 [])
           [("total", [VInt 10; VInt 20])] "k3x9qa");
    reflexivity.
Defined.

Lemma chart_branch_without_data_witness :
  @generate_chart_instructions _ (Demo.collaborators "chart" "SELECT 1" "")
     (initial_state "plot it") Demo.world0
  = (Ret (set_chart_script "Error: No DataFrame in state."
            (initial_state "plot it")), Demo.world0)
  /\ @execute_chart_code _ (Demo.collaborators "chart" "SELECT 1" "")
       (set_chart_script "Error: No DataFrame in state."
          (initial_state "plot it")) Demo.world0
     = (Ret (set_chart_output (VStr "Error: No chart script available")
               (set_chart_script "Error: No DataFrame in state."
                  (initial_state "plot it"))),
        Demo.world0).
Proof.
  apply (@chart_branch_without_data _
           (Demo.collaborators "chart" "SELECT 1" "")
           (initial_state "plot it") Demo.world0 "plot it");
    [reflexivity | left; reflexivity].
Defined.

Lemma invoke_table_run_witness :
  Demo.run_visited Demo.table_run = table_path
  /\ forallb (fun n => negb (is_chart_node n))
             (Demo.run_visited Demo.table_run) = true
  /\ final_output (Demo.run_state Demo.table_run)
     = Some (VDict (outputs_of (Demo.run_state Demo.table_run)))
  /\ dict_get "chart" (outputs_of (Demo.run_state Demo.table_run)) = None.
Proof.
  apply (@PipelineSpec.invoke_table_run _
           (Demo.collaborators "table" "SELECT 1" Demo.failing_script)
           "list it" Demo.world0
           (Demo.run_state Demo.table_run) (Demo.run_visited Demo.table_run)
           (snd Demo.table_run));
    vm_compute; reflexivity.
Defined.

Lemma invoke_chart_run_witness :
  Demo.run_visited Demo.chart_run = chart_path
  /\ final_output (Demo.run_state Demo.chart_run)
     = Some (VDict (outputs_of (Demo.run_state Demo.chart_run)))
  /\ exists marker d,
       chart_output (Demo.run_state Demo.chart_run) = Some (VStr marker)
       /\ data (Demo.run_state Demo.chart_run) = Some (VDict d)
       /\ dict_get "chart" (outputs_of (Demo.run_state Demo.chart_run))
          = Some (VStr marker)
       /\ forall key, key <> "chart" ->
            dict_get key (outputs_of (Demo.run_state Demo.chart_run))
            = dict_get key
                (@tabular_outputs _
                   (Demo.collaborators "chart"
                      "SELECT region, total FROM sales" Demo.failing_script)
                   d []).
Proof.
  apply (@PipelineSpec.invoke_chart_run _
           (Demo.collaborators "chart" "SELECT region, total FROM sales"
                               Demo.failing_script)
           "plot it" Demo.world0
           (Demo.run_state Demo.chart_run) (Demo.run_visited Demo.chart_run)
           (snd Demo.chart_run));
    vm_compute; reflexivity.
Defined.

Section Runs.
Context {Env : Type} `{C : Collaborators Env}.

(** X14.  A run that returns has a tabular slot, or the error marker
    of the conversion, in its final output, and never the message
    "No valid output found.": by the time the assembly runs, [data] is
    a dict. *)
Theorem invoke_never_ends_without_output :
  forall (question : string) (w w' : World Env) (state : GraphState)
         (visited : list Node),
    invoke question w = (Ret (state, visited), w') ->
    (dict_has "multi_table_data" (outputs_of state)
     || dict_has "dataframe" (outputs_of state)
     || dict_has "error" (outputs_of state) = true)
    /\ dict_get "message" (outputs_of state) = None
    /\ exists d, data state = Some (VDict d).
Proof.
  intros question w w' state visited Hrun.
  destruct (PipelineSpec.invoke_paths question w state visited w' Hrun)
    as (t & q & d & pre & -> & _ & _ & Hdata & _).
  destruct (PipelineSpec.state_printer_slots pre) as (Hfinal & _ & Hother).
  destruct (AssemblySpec.tabular_outputs_slot d) as (_ & _ & Hmsg & Hslot).
  unfold dict_has in *.
  rewrite !(Hother d) by (exact Hdata || discriminate).
  split; [exact Hslot |].
  split; [exact Hmsg |].
  exists d. rewrite Hfinal. exact Hdata.
Qed.

End Runs.

Lemma invoke_never_ends_without_output_witness :
  (dict_has "multi_table_data" (outputs_of (Demo.run_state Demo.table_run))
   || dict_has "dataframe" (outputs_of (Demo.run_state Demo.table_run))
   || dict_has "error" (outputs_of (Demo.run_state Demo.table_run)) = true)
  /\ dict_get "message" (outputs_of (Demo.run_state Demo.table_run)) = None
  /\ exists d, data (Demo.run_state Demo.table_run) = Some (VDict d).
Proof.
  apply (@invoke_never_ends_without_output _
           (Demo.collaborators "table" "SELECT 1" Demo.failing_script)
           "list it" Demo.world0 (snd Demo.table_run)
           (Demo.run_state Demo.table_run) (Demo.run_visited Demo.table_run)).
  vm_compute. reflexivity.
Defined.

End AgentExtra.
